(** * SecurityService (lib/services/lib/SecurityService.js)

    A shallow embedding of the service's storage-facing operations and the
    properties of the verification workflow built on them.

    The service talks to five Mongoose collections through [findOne],
    [create], [remove], and the document methods [save] and [remove].  A
    collection is modelled as the list of its documents in insertion order
    ([findOne] returns the first match), the database as a record of the five
    lists, and every [async] method as a function from a world to a world and
    an outcome: an exception does not roll anything back, so the world after a
    [Throw] is the world the method had reached.  The storage and mail calls
    of the verification, signature and revocation methods are also appended
    to a trace, so that "performs no lookup" or "saves once" can be stated.  [debug(...)] lines only print and are left out. *)

From Stdlib Require Import List String Ascii Bool Arith Lia.
Import ListNotations.
Open Scope string_scope.

(** ** Documents *)

Definition ObjectId := nat.

(** [user.level2]: the account's own contact values, either of which may be
    unset. *)
Module UserLevel2.
Record t := { email : option string; phone : option string }.
End UserLevel2.

Record SecurityUser := {
  user_id : ObjectId;
  user_name : string;
  user_level2 : UserLevel2.t
}.

Record SecuritySignature := {
  sig_id : ObjectId;
  sig_user : ObjectId;
  sig_type : string;
  sig_value : string
}.

Record SecurityToken := {
  tok_id : ObjectId;
  tok_user : ObjectId;
  tok_purpose : string;
  tok_token : string
}.

Record SecurityCheck := {
  chk_id : ObjectId;
  chk_user : ObjectId;
  chk_type : string;
  chk_payload : string;
  chk_check : string
}.

(** The level payloads of a verification request.  [validationComment] is
    [None] for [null] or unset; [isValid] is [None] when [create] was not
    given it. *)
Module Level1.
Record t := {
  userName : string;
  birthDate : string;
  avatar : option ObjectId;
  validationComment : option string;
  isValid : option bool
}.
End Level1.

Module Level2.
Record t := {
  email : string;
  phone : string;
  isEmailConfirmed : bool;
  isPhoneConfirmed : bool;
  validationComment : option string;
  isValid : option bool
}.
End Level2.

Module Level3.
Record t := {
  passport : string;
  expirationDate : string;
  attachments : list ObjectId
}.
End Level3.

Module Level4.
Record t := {
  country : string;
  state : string;
  city : string;
  zip : string;
  addressLine1 : string;
  addressLine2 : string;
  attachments : list ObjectId
}.
End Level4.

(** A payload is [None] when the document does not have it: the service
    itself tests [!request.level2]. *)
Record VerificationRequest := {
  req_id : ObjectId;
  req_user : ObjectId;
  req_level : string;
  req_status : string;
  req_level1 : option Level1.t;
  req_level2 : option Level2.t;
  req_level3 : option Level3.t;
  req_level4 : option Level4.t
}.

Definition set_level1 (v : Level1.t) (r : VerificationRequest) : VerificationRequest :=
  {| req_id := req_id r; req_user := req_user r; req_level := req_level r;
     req_status := req_status r; req_level1 := Some v; req_level2 := req_level2 r;
     req_level3 := req_level3 r; req_level4 := req_level4 r |}.

Definition set_level2 (v : Level2.t) (r : VerificationRequest) : VerificationRequest :=
  {| req_id := req_id r; req_user := req_user r; req_level := req_level r;
     req_status := req_status r; req_level1 := req_level1 r; req_level2 := Some v;
     req_level3 := req_level3 r; req_level4 := req_level4 r |}.

Definition set_level3 (v : Level3.t) (r : VerificationRequest) : VerificationRequest :=
  {| req_id := req_id r; req_user := req_user r; req_level := req_level r;
     req_status := req_status r; req_level1 := req_level1 r; req_level2 := req_level2 r;
     req_level3 := Some v; req_level4 := req_level4 r |}.

Definition set_level4 (v : Level4.t) (r : VerificationRequest) : VerificationRequest :=
  {| req_id := req_id r; req_user := req_user r; req_level := req_level r;
     req_status := req_status r; req_level1 := req_level1 r; req_level2 := req_level2 r;
     req_level3 := req_level3 r; req_level4 := Some v |}.

(** [request.level2.isEmailConfirmed = true] and its phone twin. *)
Definition set_isEmailConfirmed (b : bool) (l : Level2.t) : Level2.t :=
  {| Level2.email := Level2.email l; Level2.phone := Level2.phone l;
     Level2.isEmailConfirmed := b;
     Level2.isPhoneConfirmed := Level2.isPhoneConfirmed l;
     Level2.validationComment := Level2.validationComment l;
     Level2.isValid := Level2.isValid l |}.

Definition set_isPhoneConfirmed (b : bool) (l : Level2.t) : Level2.t :=
  {| Level2.email := Level2.email l; Level2.phone := Level2.phone l;
     Level2.isEmailConfirmed := Level2.isEmailConfirmed l;
     Level2.isPhoneConfirmed := b;
     Level2.validationComment := Level2.validationComment l;
     Level2.isValid := Level2.isValid l |}.

(** ** Request models handed in by the caller

    The classes of lib/models are not under src/; each is the record of the
    fields the service reads from it.  The [assert(... instanceof ...)] at the
    head of each method is the typing of the argument. *)
Module VerificationRequestLevel1Model.
Record t := { userName : string; birthDate : string; avatar : option ObjectId }.
End VerificationRequestLevel1Model.

Module VerificationRequestLevel2Model.
Record t := { email : string; phone : string }.
End VerificationRequestLevel2Model.

Module VerificationRequestLevel3Model.
Record t := { passport : string; expirationDate : string; attachments : list ObjectId }.
End VerificationRequestLevel3Model.

Module VerificationRequestLevel4Model.
Record t := {
  country : string; state : string; city : string; zip : string;
  addressLine1 : string; addressLine2 : string; attachments : list ObjectId
}.
End VerificationRequestLevel4Model.

(** A code field is [None] when the submission does not carry it. *)
Module ConfirmationRequestLevel2Model.
Record t := { emailCode : option string; phoneCode : option string }.
End ConfirmationRequestLevel2Model.

(** The object [confirmLevel2Request] returns. *)
Record ConfirmationResult := {
  isEmailTried : bool;
  isEmailVerified : bool;
  isPhoneTried : bool;
  isPhoneVerified : bool
}.

(** A signature with [populate('user')] applied: the reference is resolved
    to the user document, or to [null] when no user has that id. *)
Record PopulatedSignature := {
  ps_signature : SecuritySignature;
  ps_user : option SecurityUser
}.

Record PopulatedToken := {
  pt_token : SecurityToken;
  pt_user : option SecurityUser
}.

(** Modelled from the spec: PersonModel (lib/models) is not under src/.  The
    spec says [resolveAccount] "returns the bound Account merged with the
    matched address value": the pair of the two arguments of [fromMongo]. *)
Record PersonModel := {
  person_account : option SecurityUser;
  person_address : string
}.

Definition PersonModel_fromMongo (user : option SecurityUser) (address : string) : PersonModel :=
  {| person_account := user; person_address := address |}.

(** [new Message({ to, subject, html })] of lib/mail. *)
Record Message := { msg_to : string; msg_subject : string; msg_html : string }.

(** ** Errors, trace and world *)

(** What a method can throw: the [TypeError] of reading a property of [null]
    or [undefined], a failed [assert], [new WebError(message, status)], and a
    rejected [message.send()]. *)
Inductive Error :=
| TypeError
| AssertionError
| WebError (message : string) (status : nat)
| DispatchError.

(** The spec's names for these failures.  The service has no error class of
    its own for a lookup that finds nothing: the method fails on the first
    property it reads from the [null] result. *)
Definition IllegalState : Error := WebError "Illegal state" 401.
Definition NotFound : Error := TypeError.
Definition PreconditionFailed : Error := AssertionError.

Inductive Outcome (A : Type) :=
| Return (a : A)
| Throw (e : Error).
Arguments Return {A} a.
Arguments Throw {A} e.

(** One entry per call to the storage or mail collaborator.  A [populate]
    belongs to the query it is chained to. *)
Inductive Event :=
| SignatureFindOne (value type : string)
| SignatureFindById (id : ObjectId)
| SignatureCreate (id : ObjectId)
| UserCreate (id : ObjectId)
| TokenFindOne (token : string)
| TokenRemove (id : ObjectId)
| RequestFindOne (user : ObjectId) (level status : string)
| RequestCreate (id : ObjectId)
| RequestSave (id : ObjectId)
| CheckFindOne (user : ObjectId) (type payload check : string)
| CheckRemoveMany (user : ObjectId) (type : string)
| CheckCreate (id : ObjectId) (user : ObjectId) (type : string)
| CheckRemove (id : ObjectId) (type : string)
| MailSend (m : Message).

Record World := {
  users : list SecurityUser;
  signatures : list SecuritySignature;
  tokens : list SecurityToken;
  checks : list SecurityCheck;
  requests : list VerificationRequest;
  nextId : ObjectId;
  trace : list Event
}.

Definition with_users (v : list SecurityUser) (w : World) : World :=
  {| users := v; signatures := signatures w; tokens := tokens w; checks := checks w;
     requests := requests w; nextId := nextId w; trace := trace w |}.

Definition with_signatures (v : list SecuritySignature) (w : World) : World :=
  {| users := users w; signatures := v; tokens := tokens w; checks := checks w;
     requests := requests w; nextId := nextId w; trace := trace w |}.

Definition with_tokens (v : list SecurityToken) (w : World) : World :=
  {| users := users w; signatures := signatures w; tokens := v; checks := checks w;
     requests := requests w; nextId := nextId w; trace := trace w |}.

Definition with_checks (v : list SecurityCheck) (w : World) : World :=
  {| users := users w; signatures := signatures w; tokens := tokens w; checks := v;
     requests := requests w; nextId := nextId w; trace := trace w |}.

Definition with_requests (v : list VerificationRequest) (w : World) : World :=
  {| users := users w; signatures := signatures w; tokens := tokens w; checks := checks w;
     requests := v; nextId := nextId w; trace := trace w |}.

Definition with_nextId (v : ObjectId) (w : World) : World :=
  {| users := users w; signatures := signatures w; tokens := tokens w; checks := checks w;
     requests := requests w; nextId := v; trace := trace w |}.

Definition emit (e : Event) (w : World) : World :=
  {| users := users w; signatures := signatures w; tokens := tokens w; checks := checks w;
     requests := requests w; nextId := nextId w; trace := trace w ++ [e] |}.

(** ** The monad of an [async] method *)

Definition M (A : Type) : Type := World -> World * Outcome A.

Definition ret {A} (a : A) : M A := fun w => (w, Return a).

Definition throw {A} (e : Error) : M A := fun w => (w, Throw e).

Definition bind {A B} (m : M A) (k : A -> M B) : M B :=
  fun w =>
    match m w with
    | (w', Return a) => k a w'
    | (w', Throw e) => (w', Throw e)
    end.

Notation "x <- m ;; k" := (bind m (fun x => k))
  (at level 61, m at next level, right associativity).
Notation "m ;;; k" := (bind m (fun _ => k))
  (at level 61, right associativity).

(** Reading a property of a value that may be [null]. *)
Definition deref {A} (o : option A) : M A :=
  match o with
  | Some a => ret a
  | None => throw TypeError
  end.

(** [assert(x != null)]. *)
Definition assert_some {A} (o : option A) : M A :=
  match o with
  | Some a => ret a
  | None => throw AssertionError
  end.

(** JavaScript truthiness of a string that may be absent: [if (code)]. *)
Definition truthy (s : option string) : bool :=
  match s with
  | Some s => negb (s =? "")
  | None => false
  end.

(** The value a query field is compared with; an absent code matches no
    stored string. *)
Definition code_of (s : option string) : string :=
  match s with
  | Some s => s
  | None => ""
  end.

(** [String.prototype.toLowerCase] on the code units of an address, which
    are ASCII: [A]-[Z] go to [a]-[z], the rest is kept. *)
Definition lower_ascii (c : ascii) : ascii :=
  let n := nat_of_ascii c in
  if ((65 <=? n) && (n <=? 90))%nat then ascii_of_nat (n + 32) else c.

Fixpoint toLowerCase (s : string) : string :=
  match s with
  | EmptyString => EmptyString
  | String c s' => String (lower_ascii c) (toLowerCase s')
  end.

(** [a === b] where [b] may be unset. *)
Definition strict_eq_opt (a : string) (b : option string) : bool :=
  match b with
  | Some b => a =? b
  | None => false
  end.

(** ** Queries

    A filter object is the predicate it denotes on a document. *)

Definition request_query (user : ObjectId) (level status : string)
    (r : VerificationRequest) : bool :=
  Nat.eqb (req_user r) user && (req_level r =? level) && (req_status r =? status).

Definition check_query (user : ObjectId) (type payload check : string)
    (c : SecurityCheck) : bool :=
  Nat.eqb (chk_user c) user && (chk_type c =? type) && (chk_payload c =? payload)
  && (chk_check c =? check).

Definition check_scope (user : ObjectId) (type : string) (c : SecurityCheck) : bool :=
  Nat.eqb (chk_user c) user && (chk_type c =? type).

Definition signature_query (value type : string) (s : SecuritySignature) : bool :=
  (sig_value s =? value) && (sig_type s =? type).

Definition token_query (token : string) (t : SecurityToken) : bool :=
  tok_token t =? token.

(** [populate('user')]: the user document with the referenced [_id]. *)
Definition populate_user (w : World) (id : ObjectId) : option SecurityUser :=
  find (fun u => Nat.eqb (user_id u) id) (users w).

Definition populate_signature (w : World) (s : SecuritySignature) : PopulatedSignature :=
  {| ps_signature := s; ps_user := populate_user w (sig_user s) |}.

Definition populate_token (w : World) (t : SecurityToken) : PopulatedToken :=
  {| pt_token := t; pt_user := populate_user w (tok_user t) |}.

(** Modelled from the spec: the VerificationRequest list is not under src/,
    so the status a created request gets when [create] is not given one is
    taken from the spec, where a request is "created on first submission" and
    "created" is the one active status. *)
Definition defaultStatus : string := "created".

(** ** Storage primitives *)

(** [VerificationRequest.model.findOne({ user, level, status })]. *)
Definition Request_findOne (user : ObjectId) (level status : string)
    : M (option VerificationRequest) :=
  fun w => (emit (RequestFindOne user level status) w,
            Return (find (request_query user level status) (requests w))).

(** [VerificationRequest.model.create(...)]: the document gets a fresh [_id]
    and is appended. *)
Definition Request_create (doc : ObjectId -> VerificationRequest)
    : M VerificationRequest :=
  fun w =>
    let d := doc (nextId w) in
    (emit (RequestCreate (nextId w))
       (with_nextId (S (nextId w)) (with_requests (requests w ++ [d]) w)),
     Return d).

(** [request.save()]: the stored document with this [_id] takes the fields of
    the one in memory.  Between the [findOne] that loaded it and the [save]
    the service writes no request, so writing the whole document is writing
    its modified paths. *)
Definition replace_request (r : VerificationRequest) (l : list VerificationRequest)
    : list VerificationRequest :=
  map (fun d => if Nat.eqb (req_id d) (req_id r) then r else d) l.
Arguments replace_request : simpl never.

Definition Request_save (r : VerificationRequest) : M unit :=
  fun w =>
    (emit (RequestSave (req_id r)) (with_requests (replace_request r (requests w)) w),
     Return tt).

(** [SecurityCheck.model.findOne({ user, type, payload, check })]. *)
Definition Check_findOne (user : ObjectId) (type payload check : string)
    : M (option SecurityCheck) :=
  fun w => (emit (CheckFindOne user type payload check) w,
            Return (find (check_query user type payload check) (checks w))).

(** [SecurityCheck.model.remove({ user, type })]: every match goes. *)
Definition Check_removeMany (user : ObjectId) (type : string) : M unit :=
  fun w =>
    (emit (CheckRemoveMany user type)
       (with_checks (filter (fun c => negb (check_scope user type c)) (checks w)) w),
     Return tt).

(** [check.remove()]: the stored document with this [_id] goes. *)
Definition Check_remove (c : SecurityCheck) : M unit :=
  fun w =>
    (emit (CheckRemove (chk_id c) (chk_type c))
       (with_checks (filter (fun d => negb (Nat.eqb (chk_id d) (chk_id c))) (checks w)) w),
     Return tt).

(** [SecurityToken.model.findOne({ token }).populate('user')]. *)
Definition Token_findOne (token : string) : M (option PopulatedToken) :=
  fun w => (emit (TokenFindOne token) w,
            Return (option_map (populate_token w) (find (token_query token) (tokens w)))).

(** [token.remove()]. *)
Definition Token_remove (t : SecurityToken) : M unit :=
  fun w =>
    (emit (TokenRemove (tok_id t))
       (with_tokens (filter (fun d => negb (Nat.eqb (tok_id d) (tok_id t))) (tokens w)) w),
     Return tt).

(** [SecuritySignature.model.findOne({ value, type }).populate('user')]. *)
Definition Signature_findOne (value type : string) : M (option PopulatedSignature) :=
  fun w => (emit (SignatureFindOne value type) w,
            Return (option_map (populate_signature w)
                      (find (signature_query value type) (signatures w)))).

(** [SecuritySignature.model.findOne({ _id }).populate('user')]. *)
Definition Signature_findById (id : ObjectId) : M (option PopulatedSignature) :=
  fun w => (emit (SignatureFindById id) w,
            Return (option_map (populate_signature w)
                      (find (fun s => Nat.eqb (sig_id s) id) (signatures w)))).

(** [SecurityUser.model.create({ name })]: no contact value is set. *)
Definition User_create (name : string) : M SecurityUser :=
  fun w =>
    let u := {| user_id := nextId w; user_name := name;
                user_level2 := {| UserLevel2.email := None; UserLevel2.phone := None |} |} in
    (emit (UserCreate (nextId w))
       (with_nextId (S (nextId w)) (with_users (users w ++ [u]) w)),
     Return u).

(** [SecuritySignature.model.create({ user, type, value })]. *)
Definition Signature_create (user : ObjectId) (type value : string)
    : M SecuritySignature :=
  fun w =>
    let s := {| sig_id := nextId w; sig_user := user; sig_type := type;
                sig_value := value |} in
    (emit (SignatureCreate (nextId w))
       (with_nextId (S (nextId w)) (with_signatures (signatures w ++ [s]) w)),
     Return s).

(** ** Well-formed worlds and the invariants of the data model *)

(** [_id] is the primary key of a collection, and [nextId] has not been
    handed out yet. *)
Definition keyed {A} (key : A -> ObjectId) (next : ObjectId) (l : list A) : Prop :=
  NoDup (map key l) /\ Forall (fun k => k < next) (map key l).

Definition wf (w : World) : Prop :=
  keyed user_id (nextId w) (users w) /\
  keyed sig_id (nextId w) (signatures w) /\
  keyed tok_id (nextId w) (tokens w) /\
  keyed chk_id (nextId w) (checks w) /\
  keyed req_id (nextId w) (requests w).

(** At most one request per (account, level) with status "created". *)
Definition unique_created (w : World) : Prop :=
  forall user level,
    List.length (filter (request_query user level "created") (requests w)) <= 1.

(** The collections of a world, without its [_id] counter and trace. *)
Definition same_db (w w' : World) : Prop :=
  users w' = users w /\ signatures w' = signatures w /\ tokens w' = tokens w /\
  checks w' = checks w /\ requests w' = requests w.

(** How many checks of a type the calls of a trace issued. *)
Definition issues (type : string) (e : Event) : bool :=
  match e with
  | CheckCreate _ _ t => t =? type
  | _ => false
  end.

Definition issued (type : string) (t : list Event) : nat :=
  List.length (filter (issues type) t).

(** Whether a call looks up or removes checks of a type. *)
Definition touches_check (type : string) (e : Event) : bool :=
  match e with
  | CheckFindOne _ t _ _ => t =? type
  | CheckRemoveMany _ t => t =? type
  | CheckRemove _ t => t =? type
  | _ => false
  end.


(** ** The service *)

Section SecurityService.

(** What the service takes from collaborators that are not under src/: the
    code the SecurityCheck list gives a new check (a function of the fresh
    [_id], so any sequence of codes is covered), [config.get('mail.baseURL')],
    the [confirmTemplate] of the mail module, and whether [message.send()]
    resolves, given what happened so far. *)
Variable genCheck : ObjectId -> string.
Variable mailBaseURL : string.
Variable confirmTemplate : string -> string -> string -> string * string.
Variable mailSend : list Event -> Message -> bool.

(** [SecurityCheck.model.create({ user, type, payload })]. *)
Definition Check_create (user : ObjectId) (type payload : string) : M SecurityCheck :=
  fun w =>
    let c := {| chk_id := nextId w; chk_user := user; chk_type := type;
                chk_payload := payload; chk_check := genCheck (nextId w) |} in
    (emit (CheckCreate (nextId w) user type)
       (with_nextId (S (nextId w)) (with_checks (checks w ++ [c]) w)),
     Return c).

(** [message.send()]. *)
Definition Message_send (m : Message) : M unit :=
  fun w =>
    (emit (MailSend m) w,
     if mailSend (trace w) m then Return tt else Throw DispatchError).

Definition selectPerson (address : string) : M PersonModel :=
  signature <- Signature_findOne (toLowerCase address) "ethereum-address" ;;
  signature <- deref signature ;;
  ret (PersonModel_fromMongo (ps_user signature) (sig_value (ps_signature signature))).

Definition requireSignature (type value : string) : M (option PopulatedSignature) :=
  signature <- Signature_findOne value type ;;
  match signature with
  | Some signature => ret (Some signature)
  | None =>
      u <- User_create (type ++ ":" ++ value) ;;
      s <- Signature_create (user_id u) type value ;;
      Signature_findById (sig_id s)
  end.

Definition removeToken (token : string) : M PopulatedToken :=
  result <- Token_findOne token ;;
  result <- deref result ;;
  Token_remove (pt_token result) ;;;
  ret result.

Definition new_request (user : ObjectId) (level : string) (id : ObjectId)
    : VerificationRequest :=
  {| req_id := id; req_user := user; req_level := level; req_status := defaultStatus;
     req_level1 := None; req_level2 := None; req_level3 := None; req_level4 := None |}.

(** The [level1] object of the update branch of [upsertLevel1Request], which
    voids the review, and the one of its create branch. *)
Definition resubmitted_level1 (requestModel : VerificationRequestLevel1Model.t)
    : Level1.t :=
  {| Level1.userName := VerificationRequestLevel1Model.userName requestModel;
     Level1.birthDate := VerificationRequestLevel1Model.birthDate requestModel;
     Level1.avatar := VerificationRequestLevel1Model.avatar requestModel;
     Level1.validationComment := None;
     Level1.isValid := Some false |}.

Definition submitted_level1 (requestModel : VerificationRequestLevel1Model.t)
    : Level1.t :=
  {| Level1.userName := VerificationRequestLevel1Model.userName requestModel;
     Level1.birthDate := VerificationRequestLevel1Model.birthDate requestModel;
     Level1.avatar := VerificationRequestLevel1Model.avatar requestModel;
     Level1.validationComment := None;
     Level1.isValid := None |}.

Definition upsertLevel1Request (user : SecurityUser)
    (requestModel : VerificationRequestLevel1Model.t) : M unit :=
  request <- Request_findOne (user_id user) "level-1" "created" ;;
  match request with
  | Some request => Request_save (set_level1 (resubmitted_level1 requestModel) request)
  | None =>
      Request_create (fun id =>
        set_level1 (submitted_level1 requestModel)
          (new_request (user_id user) "level-1" id)) ;;;
      ret tt
  end.

(** Both branches of [upsertLevel3Request] write the same three fields. *)
Definition submitted_level3 (requestModel : VerificationRequestLevel3Model.t)
    : Level3.t :=
  {| Level3.passport := VerificationRequestLevel3Model.passport requestModel;
     Level3.expirationDate := VerificationRequestLevel3Model.expirationDate requestModel;
     Level3.attachments := VerificationRequestLevel3Model.attachments requestModel |}.

Definition upsertLevel3Request (user : SecurityUser)
    (requestModel : VerificationRequestLevel3Model.t) : M unit :=
  request <- Request_findOne (user_id user) "level-3" "created" ;;
  match request with
  | Some request => Request_save (set_level3 (submitted_level3 requestModel) request)
  | None =>
      Request_create (fun id =>
        set_level3 (submitted_level3 requestModel)
          (new_request (user_id user) "level-3" id)) ;;;
      ret tt
  end.

(** Both branches of [upsertLevel4Request] write the same seven fields. *)
Definition submitted_level4 (requestModel : VerificationRequestLevel4Model.t)
    : Level4.t :=
  {| Level4.country := VerificationRequestLevel4Model.country requestModel;
     Level4.state := VerificationRequestLevel4Model.state requestModel;
     Level4.city := VerificationRequestLevel4Model.city requestModel;
     Level4.zip := VerificationRequestLevel4Model.zip requestModel;
     Level4.addressLine1 := VerificationRequestLevel4Model.addressLine1 requestModel;
     Level4.addressLine2 := VerificationRequestLevel4Model.addressLine2 requestModel;
     Level4.attachments := VerificationRequestLevel4Model.attachments requestModel |}.

Definition upsertLevel4Request (user : SecurityUser)
    (requestModel : VerificationRequestLevel4Model.t) : M unit :=
  request <- Request_findOne (user_id user) "level-4" "created" ;;
  match request with
  | Some request => Request_save (set_level4 (submitted_level4 requestModel) request)
  | None =>
      Request_create (fun id =>
        set_level4 (submitted_level4 requestModel)
          (new_request (user_id user) "level-4" id)) ;;;
      ret tt
  end.

(** [!request || !request.level2 || request.level2.isPhoneConfirmed]: the
    payload to go on with, unless the guard throws. *)
Definition pending_level2 (confirmed : Level2.t -> bool)
    (request : option VerificationRequest) : M Level2.t :=
  match request with
  | None => throw (WebError "Illegal state" 401)
  | Some request =>
      match req_level2 request with
      | None => throw (WebError "Illegal state" 401)
      | Some level2 =>
          if confirmed level2 then throw (WebError "Illegal state" 401) else ret level2
      end
  end.

Definition validatePhone (user : SecurityUser) : M unit :=
  request <- Request_findOne (user_id user) "level-2" "created" ;;
  level2 <- pending_level2 Level2.isPhoneConfirmed request ;;
  Check_removeMany (user_id user) "confirm-phone" ;;;
  checkPhone <- Check_create (user_id user) "confirm-phone" (Level2.phone level2) ;;
  ret tt.

Definition validateEmail (user : SecurityUser) : M unit :=
  request <- Request_findOne (user_id user) "level-2" "created" ;;
  level2 <- pending_level2 Level2.isEmailConfirmed request ;;
  Check_removeMany (user_id user) "confirm-email" ;;;
  checkEmail <- Check_create (user_id user) "confirm-email" (Level2.email level2) ;;
  let (subject, content) :=
    confirmTemplate mailBaseURL (user_name user) (chk_check checkEmail) in
  Message_send {| msg_to := Level2.email level2; msg_subject := subject;
                  msg_html := content |}.

(** The [level2] object the update branch of [upsertLevel2Request] assigns. *)
Definition resubmitted_level2 (requestModel : VerificationRequestLevel2Model.t)
    (old : Level2.t) : Level2.t :=
  {| Level2.email := VerificationRequestLevel2Model.email requestModel;
     Level2.phone := VerificationRequestLevel2Model.phone requestModel;
     Level2.isEmailConfirmed :=
       if VerificationRequestLevel2Model.email requestModel =? Level2.email old
       then Level2.isEmailConfirmed old else false;
     Level2.isPhoneConfirmed :=
       if VerificationRequestLevel2Model.phone requestModel =? Level2.phone old
       then Level2.isPhoneConfirmed old else false;
     Level2.validationComment := None;
     Level2.isValid := Some false |}.

(** The [level2] object its create branch passes. *)
Definition submitted_level2 (user : SecurityUser)
    (requestModel : VerificationRequestLevel2Model.t) : Level2.t :=
  {| Level2.email := VerificationRequestLevel2Model.email requestModel;
     Level2.phone := VerificationRequestLevel2Model.phone requestModel;
     Level2.isEmailConfirmed :=
       strict_eq_opt (VerificationRequestLevel2Model.email requestModel)
         (UserLevel2.email (user_level2 user));
     Level2.isPhoneConfirmed :=
       strict_eq_opt (VerificationRequestLevel2Model.phone requestModel)
         (UserLevel2.phone (user_level2 user));
     Level2.validationComment := None;
     Level2.isValid := None |}.

(** Lines 153-184 of [upsertLevel2Request]: the request in memory once it is
    saved or created. *)
Definition upsertLevel2_upsert (user : SecurityUser)
    (requestModel : VerificationRequestLevel2Model.t) : M VerificationRequest :=
  request <- Request_findOne (user_id user) "level-2" "created" ;;
  match request with
  | Some request =>
      old <- deref (req_level2 request) ;;
      let request := set_level2 (resubmitted_level2 requestModel old) request in
      Request_save request ;;;
      ret request
  | None =>
      Request_create (fun id =>
        set_level2 (submitted_level2 user requestModel)
          (new_request (user_id user) "level-2" id))
  end.

(** Lines 185-190: the two re-verification triggers. *)
Definition upsertLevel2_reverify (user : SecurityUser) (request : VerificationRequest)
    : M unit :=
  level2 <- deref (req_level2 request) ;;
  (if negb (Level2.isPhoneConfirmed level2) then validatePhone user else ret tt) ;;;
  (if negb (Level2.isEmailConfirmed level2) then validateEmail user else ret tt).

Definition upsertLevel2Request (user : SecurityUser)
    (requestModel : VerificationRequestLevel2Model.t) : M unit :=
  request <- upsertLevel2_upsert user requestModel ;;
  upsertLevel2_reverify user request.

(** One channel of [confirmLevel2Request]: the request in memory after it,
    and the [tried] and [verified] flags. *)
Definition confirm_channel (user : SecurityUser) (type : string)
    (code : option string) (contact : Level2.t -> string)
    (confirm : Level2.t -> Level2.t) (request : VerificationRequest)
    : M (VerificationRequest * bool * bool) :=
  if truthy code then
    level2 <- deref (req_level2 request) ;;
    check <- Check_findOne (user_id user) type (contact level2) (code_of code) ;;
    match check with
    | Some check =>
        Check_remove check ;;;
        ret (set_level2 (confirm level2) request, true, true)
    | None => ret (request, true, false)
    end
  else ret (request, false, false).

Definition confirmLevel2Request (user : SecurityUser)
    (requestModel : ConfirmationRequestLevel2Model.t) : M ConfirmationResult :=
  request <- Request_findOne (user_id user) "level-2" "created" ;;
  request <- assert_some request ;;
  e <- confirm_channel user "confirm-email"
         (ConfirmationRequestLevel2Model.emailCode requestModel)
         Level2.email (set_isEmailConfirmed true) request ;;
  let '(request, isEmailTried, isEmailVerified) := e in
  p <- confirm_channel user "confirm-phone"
         (ConfirmationRequestLevel2Model.phoneCode requestModel)
         Level2.phone (set_isPhoneConfirmed true) request ;;
  let '(request, isPhoneTried, isPhoneVerified) := p in
  (if isPhoneVerified || isEmailVerified then Request_save request else ret tt) ;;;
  ret {| isEmailTried := isEmailTried; isEmailVerified := isEmailVerified;
         isPhoneTried := isPhoneTried; isPhoneVerified := isPhoneVerified |}.

End SecurityService.

(** ** The batch lookup and the token methods

    The storage calls that only these methods make are not entered in the
    trace: nothing below speaks of their order. *)

Definition token_scope (user : ObjectId) (purpose : string) (t : SecurityToken) : bool :=
  Nat.eqb (tok_user t) user && (tok_purpose t =? purpose).

(** [{ value: { $in: values }, type }]. *)
Definition signature_in_query (values : list string) (type : string)
    (s : SecuritySignature) : bool :=
  existsb (String.eqb (sig_value s)) values && (sig_type s =? type).

(** [SecuritySignature.model.find({ value: { $in }, type }).populate('user')]:
    every match, in the order of the collection. *)
Definition Signature_find (values : list string) (type : string)
    : M (list PopulatedSignature) :=
  fun w => (w, Return (map (populate_signature w)
                         (filter (signature_in_query values type) (signatures w)))).

(** [SecurityToken.model.findOne({ user, purpose })]. *)
Definition Token_findOne_scope (user : ObjectId) (purpose : string)
    : M (option SecurityToken) :=
  fun w => (w, Return (find (token_scope user purpose) (tokens w))).

Definition replace_token (t : SecurityToken) (l : list SecurityToken)
    : list SecurityToken :=
  map (fun d => if Nat.eqb (tok_id d) (tok_id t) then t else d) l.
Arguments replace_token : simpl never.

(** [token.save()], as [request.save()]. *)
Definition Token_save (t : SecurityToken) : M unit :=
  fun w => (with_tokens (replace_token t (tokens w)) w, Return tt).

(** [SecurityToken.model.findOne({ _id }).populate('user')]. *)
Definition Token_findById (id : ObjectId) : M (option PopulatedToken) :=
  fun w => (w, Return (option_map (populate_token w)
                         (find (fun t => Nat.eqb (tok_id t) id) (tokens w)))).

Definition selectPersons (addresses : list string) : M (list PersonModel) :=
  signatures <- Signature_find (map toLowerCase addresses) "ethereum-address" ;;
  ret (map (fun signature =>
              PersonModel_fromMongo (ps_user signature)
                (sig_value (ps_signature signature)))
         signatures).

Definition findToken (token : string) : M (option PopulatedToken) :=
  Token_findOne token.

Section TokenVault.

(** The value the SecurityToken list gives the [token] field of a new token,
    a function of the fresh [_id]. *)
Variable genToken : ObjectId -> string.

(** [SecurityToken.model.create({ user, purpose })]. *)
Definition Token_create (user : ObjectId) (purpose : string) : M SecurityToken :=
  fun w =>
    let t := {| tok_id := nextId w; tok_user := user; tok_purpose := purpose;
                tok_token := genToken (nextId w) |} in
    (with_nextId (S (nextId w)) (with_tokens (tokens w ++ [t]) w), Return t).

Definition upsertToken (user : SecurityUser) (purpose : string)
    : M (option PopulatedToken) :=
  token <- Token_findOne_scope (user_id user) purpose ;;
  token <-
    match token with
    | Some token => Token_save token ;;; ret token
    | None => Token_create (user_id user) purpose
    end ;;
  Token_findById (tok_id token).

End TokenVault.

(** At most one token per (account, purpose), and at most one signature per
    (value, type). *)
Definition unique_token (w : World) : Prop :=
  forall user purpose,
    List.length (filter (token_scope user purpose) (tokens w)) <= 1.

Definition unique_signature (w : World) : Prop :=
  forall value type,
    List.length (filter (signature_query value type) (signatures w)) <= 1.

(** At most one check per (account, type). *)
Definition unique_check (w : World) : Prop :=
  forall user type,
    List.length (filter (check_scope user type) (checks w)) <= 1.

(** Every collection but the requests is as it was. *)
Definition same_but_requests (w w' : World) : Prop :=
  users w' = users w /\ signatures w' = signatures w /\ tokens w' = tokens w /\
  checks w' = checks w.

(** Every collection but the checks is as it was. *)
Definition same_but_checks (w w' : World) : Prop :=
  users w' = users w /\ signatures w' = signatures w /\ tokens w' = tokens w /\
  requests w' = requests w.

(** Whether a call sends a mail. *)
Definition is_mail (e : Event) : bool :=
  match e with
  | MailSend _ => true
  | _ => false
  end.

(** The person [selectPerson] and [selectPersons] make of a signature. *)
Definition person_of (w : World) (s : SecuritySignature) : PersonModel :=
  {| person_account := populate_user w (sig_user s); person_address := sig_value s |}.

(** ** What the claims speak of *)

(** What a submission does to the list of requests: the pending request of
    the account and level is overwritten where it stands, or one request is
    appended. *)
Definition upserted (user : ObjectId) (level : string)
    (update create : VerificationRequest -> VerificationRequest) (w w' : World) : Prop :=
  match find (request_query user level "created") (requests w) with
  | Some r => requests w' = replace_request (update r) (requests w)
  | None =>
      requests w' = (requests w ++ [create (new_request user level (nextId w))])%list
  end.

(** The update branch of [upsertLevel2Request] on a stored request: it fails
    before writing when the request has no level-2 payload. *)
Definition resubmit_level2 (requestModel : VerificationRequestLevel2Model.t)
    (r : VerificationRequest) : VerificationRequest :=
  match req_level2 r with
  | Some old => set_level2 (resubmitted_level2 requestModel old) r
  | None => r
  end.

(** What every submission leaves behind: a well-formed world in which the
    invariant holds, the list of requests changed as [upserted] says, and
    exactly one "created" request for the account and level. *)
Definition submitted (user : ObjectId) (level : string)
    (update create : VerificationRequest -> VerificationRequest) (w w' : World) : Prop :=
  wf w' /\ unique_created w' /\ upserted user level update create w w' /\
  List.length (filter (request_query user level "created") (requests w')) = 1.

(** The reading of "across the two calls exactly one Signature record and
    exactly one Account record are created" that asks it of every world. *)
Definition two_calls_create_one (type value : string) (w : World) : Prop :=
  let w2 := fst (requireSignature type value (fst (requireSignature type value w))) in
  List.length (signatures w2) = S (List.length (signatures w)) /\
  List.length (users w2) = S (List.length (users w)).

(** The states of the account's pending level-2 request that the guard of a
    trigger tells apart: none is stored; the one found has no level-2
    payload; its contact is already confirmed; its contact is not, and [l2]
    is the payload. *)
Definition no_pending_request (user : SecurityUser) (w : World) : Prop :=
  find (request_query (user_id user) "level-2" "created") (requests w) = None.

Definition pending_without_payload (user : SecurityUser) (w : World) : Prop :=
  exists r,
    find (request_query (user_id user) "level-2" "created") (requests w) = Some r /\
    req_level2 r = None.

Definition pending_confirmed (confirmed : Level2.t -> bool) (user : SecurityUser)
    (w : World) : Prop :=
  exists r l2,
    find (request_query (user_id user) "level-2" "created") (requests w) = Some r /\
    req_level2 r = Some l2 /\ confirmed l2 = true.

Definition pending_unconfirmed (confirmed : Level2.t -> bool) (user : SecurityUser)
    (w : World) (l2 : Level2.t) : Prop :=
  exists r,
    find (request_query (user_id user) "level-2" "created") (requests w) = Some r /\
    req_level2 r = Some l2 /\ confirmed l2 = false.

(** The check a trigger creates in [w]. *)
Definition issued_check (genCheck : ObjectId -> string) (user : SecurityUser)
    (type payload : string) (w : World) : SecurityCheck :=
  {| chk_id := nextId w; chk_user := user_id user; chk_type := type;
     chk_payload := payload; chk_check := genCheck (nextId w) |}.

(** The submissions that carry one code only. *)
Definition phone_code_only (code : string) : ConfirmationRequestLevel2Model.t :=
  {| ConfirmationRequestLevel2Model.emailCode := None;
     ConfirmationRequestLevel2Model.phoneCode := Some code |}.

Definition email_code_only (code : string) : ConfirmationRequestLevel2Model.t :=
  {| ConfirmationRequestLevel2Model.emailCode := Some code;
     ConfirmationRequestLevel2Model.phoneCode := None |}.


(** What a method keeps true of the world, whatever its outcome. *)
Definition preserves {A} (P : World -> Prop) (m : M A) : Prop :=
  forall w, P w -> P (fst (m w)).

(** The calls a method added to the trace. *)
Definition extends (w w' : World) (delta : list Event) : Prop :=
  trace w' = (trace w ++ delta)%list.

(** The list of requests is [l]. *)
Definition requests_are (l : list VerificationRequest) (w : World) : Prop :=
  requests w = l.

(** A payload assignment leaves the key, owner, level and status alone. *)
Definition keeps_identity (f : VerificationRequest -> VerificationRequest) : Prop :=
  forall r, req_id (f r) = req_id r /\ req_user (f r) = req_user r /\
            req_level (f r) = req_level r /\ req_status (f r) = req_status r.

(** ** Sample worlds *)

Definition sample_genCheck (id : ObjectId) : string :=
  match id with
  | 0 => "c0" | 1 => "c1" | 2 => "c2" | 3 => "c3" | 4 => "c4" | 5 => "c5"
  | 6 => "c6" | 7 => "c7" | _ => "c8"
  end.

Definition sample_template (baseURL username check : string) : string * string :=
  ("Confirm your email", baseURL ++ "/confirm/" ++ check).

Definition sample_send (t : list Event) (m : Message) : bool := true.

Definition empty_world : World :=
  {| users := []; signatures := []; tokens := []; checks := []; requests := [];
     nextId := 0; trace := [] |}.

Definition alice : SecurityUser :=
  {| user_id := 0; user_name := "ethereum-address:0xab";
     user_level2 := {| UserLevel2.email := Some "a@x.com"; UserLevel2.phone := None |} |}.

Definition alice_signature : SecuritySignature :=
  {| sig_id := 1; sig_user := 0; sig_type := "ethereum-address"; sig_value := "0xab" |}.

(** Alice and her address, bound by an earlier call. *)
Definition bound_world : World :=
  {| users := [alice]; signatures := [alice_signature]; tokens := []; checks := [];
     requests := []; nextId := 2; trace := [] |}.


(** Alice has submitted level 2 and confirmed nothing yet: a pending request,
    and one check for each of her two contacts. *)
Definition alice_level2 : Level2.t :=
  {| Level2.email := "a@x.com"; Level2.phone := "+1000";
     Level2.isEmailConfirmed := false; Level2.isPhoneConfirmed := false;
     Level2.validationComment := None; Level2.isValid := None |}.

Definition alice_request : VerificationRequest :=
  set_level2 alice_level2 (new_request 0 "level-2" 2).

Definition alice_email_check : SecurityCheck :=
  {| chk_id := 3; chk_user := 0; chk_type := "confirm-email";
     chk_payload := "a@x.com"; chk_check := "c3" |}.

Definition alice_phone_check : SecurityCheck :=
  {| chk_id := 4; chk_user := 0; chk_type := "confirm-phone";
     chk_payload := "+1000"; chk_check := "c4" |}.

Definition alice_token : SecurityToken :=
  {| tok_id := 5; tok_user := 0; tok_purpose := "login"; tok_token := "t5" |}.

Definition pending_world : World :=
  {| users := [alice]; signatures := [alice_signature]; tokens := [alice_token];
     checks := [alice_email_check; alice_phone_check];
     requests := [alice_request]; nextId := 6; trace := [] |}.

(** The same once her email is confirmed. *)
Definition email_confirmed_world : World :=
  {| users := [alice]; signatures := [alice_signature]; tokens := [alice_token];
     checks := [alice_phone_check];
     requests := [set_level2 (set_isEmailConfirmed true alice_level2) alice_request];
     nextId := 6; trace := [] |}.

Definition sample_level1 : VerificationRequestLevel1Model.t :=
  {| VerificationRequestLevel1Model.userName := "Alice";
     VerificationRequestLevel1Model.birthDate := "1990-01-01";
     VerificationRequestLevel1Model.avatar := None |}.

Definition sample_level2 : VerificationRequestLevel2Model.t :=
  {| VerificationRequestLevel2Model.email := "a@x.com";
     VerificationRequestLevel2Model.phone := "+2000" |}.

Definition sample_level3 : VerificationRequestLevel3Model.t :=
  {| VerificationRequestLevel3Model.passport := "P123";
     VerificationRequestLevel3Model.expirationDate := "2030-01-01";
     VerificationRequestLevel3Model.attachments := [] |}.

Definition sample_level4 : VerificationRequestLevel4Model.t :=
  {| VerificationRequestLevel4Model.country := "NL";
     VerificationRequestLevel4Model.state := "";
     VerificationRequestLevel4Model.city := "Delft";
     VerificationRequestLevel4Model.zip := "2611";
     VerificationRequestLevel4Model.addressLine1 := "Markt 1";
     VerificationRequestLevel4Model.addressLine2 := "";
     VerificationRequestLevel4Model.attachments := [] |}.

Definition sample_genToken (id : ObjectId) : string :=
  match id with
  | 6 => "t6" | 7 => "t7" | _ => "t8"
  end.

(** Alice's pending request once both her contacts are confirmed. *)
Definition confirmed_world : World :=
  {| users := [alice]; signatures := [alice_signature]; tokens := [alice_token];
     checks := [];
     requests :=
       [set_level2 (set_isPhoneConfirmed true (set_isEmailConfirmed true alice_level2))
          alice_request];
     nextId := 6; trace := [] |}.

Definition same_contacts : VerificationRequestLevel2Model.t :=
  {| VerificationRequestLevel2Model.email := "a@x.com";
     VerificationRequestLevel2Model.phone := "+1000" |}.

Definition other_contacts : VerificationRequestLevel2Model.t :=
  {| VerificationRequestLevel2Model.email := "b@x.com";
     VerificationRequestLevel2Model.phone := "+2000" |}.

(** ** Lists of documents *)

Lemma find_none_filter {A} (q : A -> bool) (l : list A) :
  find q l = None -> filter q l = [].
Proof.
  induction l as [|d l IH]; simpl; [reflexivity|].
  destruct (q d); [discriminate | exact IH].
Qed.

Lemma filter_nil_find {A} (q : A -> bool) (l : list A) :
  filter q l = [] -> find q l = None.
Proof.
  induction l as [|d l IH]; simpl; [reflexivity|].
  destruct (q d); [discriminate | exact IH].
Qed.

Lemma find_app_none {A} (q : A -> bool) (l : list A) (d : A) :
  find q l = None -> find q (l ++ [d]) = if q d then Some d else None.
Proof.
  induction l as [|x l IH]; simpl; [reflexivity|].
  destruct (q x); [discriminate | exact IH].
Qed.

Lemma filter_length_app {A} (q : A -> bool) (l : list A) (d : A) :
  List.length (filter q (l ++ [d])) =
  List.length (filter q l) + (if q d then 1 else 0).
Proof.
  rewrite filter_app, length_app. simpl. destruct (q d); reflexivity.
Qed.

Lemma find_filter_head {A} (q : A -> bool) (l : list A) (d : A) :
  find q l = Some d -> exists l', filter q l = d :: l'.
Proof.
  induction l as [|x l IH]; simpl; [discriminate|].
  destruct (q x) eqn:E.
  - intros [= ->]. eauto.
  - exact IH.
Qed.

Lemma filter_single_find {A} (q : A -> bool) (l : list A) (d : A) :
  filter q l = [d] -> find q l = Some d.
Proof.
  induction l as [|x l IH]; simpl; [discriminate|].
  destruct (q x); [intros [= -> _]; reflexivity | exact IH].
Qed.

(** A key identifies its document. *)
Lemma keyed_unique {A} (key : A -> ObjectId) (n : ObjectId) (l : list A) (d d' : A) :
  keyed key n l -> In d l -> In d' l -> key d = key d' -> d = d'.
Proof.
  intros [Hnd _]. induction l as [|x l IH]; simpl; [contradiction|].
  simpl in Hnd. inversion Hnd as [|? ? Hx Hl]; subst.
  intros [->|Hd] [->|Hd'] Hk.
  - reflexivity.
  - exfalso. apply Hx. rewrite Hk. now apply in_map.
  - exfalso. apply Hx. rewrite <- Hk. now apply in_map.
  - now apply IH.
Qed.

Lemma keyed_mono {A} (key : A -> ObjectId) (n m : ObjectId) (l : list A) :
  keyed key n l -> n <= m -> keyed key m l.
Proof.
  intros [Hnd Hlt] Hle. split; [exact Hnd|].
  eapply Forall_impl; [|exact Hlt]. simpl. intros. lia.
Qed.

Lemma keyed_fresh {A} (key : A -> ObjectId) (n : ObjectId) (l : list A) (d : A) :
  keyed key n l -> key d = n -> keyed key (S n) (l ++ [d]).
Proof.
  intros [Hnd Hlt] Hk. unfold keyed. rewrite map_app. simpl. split.
  - apply NoDup_app; [exact Hnd | repeat constructor; simpl; tauto |].
    intros k Hin [<-|[]]. rewrite Forall_forall in Hlt. apply Hlt in Hin. lia.
  - apply Forall_app. split.
    + eapply Forall_impl; [|exact Hlt]. simpl. intros. lia.
    + constructor; [lia | constructor].
Qed.

Lemma keyed_filter {A} (key : A -> ObjectId) (n : ObjectId) (p : A -> bool) (l : list A) :
  keyed key n l -> keyed key n (filter p l).
Proof.
  intros [Hnd Hlt]. split.
  - clear Hlt. induction l as [|x l IH]; simpl; [constructor|].
    simpl in Hnd. inversion Hnd as [|? ? Hx Hl]; subst.
    destruct (p x); simpl; [constructor|]; auto.
    intros Hin. apply Hx. apply in_map_iff in Hin as (y & Hy & Hin).
    apply filter_In in Hin as [Hin _]. rewrite <- Hy. now apply in_map.
  - rewrite Forall_forall in *. intros k Hk. apply Hlt.
    apply in_map_iff in Hk as (y & Hy & Hin). apply filter_In in Hin as [Hin _].
    rewrite <- Hy. now apply in_map.
Qed.

Lemma keyed_same_keys {A} (key : A -> ObjectId) (n : ObjectId) (l l' : list A) :
  map key l' = map key l -> keyed key n l -> keyed key n l'.
Proof. unfold keyed. intros ->. trivial. Qed.

(** A document found by a query is stored and satisfies it. *)
Lemma find_In {A} (q : A -> bool) (l : list A) (d : A) :
  find q l = Some d -> In d l /\ q d = true.
Proof. apply find_some. Qed.

(** *** [save] on the list of requests *)

Lemma replace_request_keys (r : VerificationRequest) (l : list VerificationRequest) :
  map req_id (replace_request r l) = map req_id l.
Proof.
  unfold replace_request. rewrite map_map. apply map_ext. intros d.
  destruct (Nat.eqb (req_id d) (req_id r)) eqn:E; [|reflexivity].
  apply Nat.eqb_eq in E. now rewrite E.
Qed.

Lemma find_replace (q : VerificationRequest -> bool) (l : list VerificationRequest)
    (r r' : VerificationRequest) :
  find q l = Some r -> q r' = true -> req_id r' = req_id r ->
  find q (replace_request r' l) = Some r'.
Proof.
  intros Hf Hq Hid. induction l as [|d l IH]; simpl in *; [discriminate|].
  destruct (Nat.eqb (req_id d) (req_id r')) eqn:E.
  - now rewrite Hq.
  - destruct (q d) eqn:Hd; [|now apply IH].
    injection Hf as ->. rewrite Hid, Nat.eqb_refl in E. discriminate.
Qed.

Lemma filter_replace_length (q : VerificationRequest -> bool)
    (l : list VerificationRequest) (r' : VerificationRequest) :
  (forall d, In d l -> req_id d = req_id r' -> q d = q r') ->
  List.length (filter q (replace_request r' l)) = List.length (filter q l).
Proof.
  induction l as [|d l IH]; simpl; intros H; [reflexivity|].
  destruct (Nat.eqb (req_id d) (req_id r')) eqn:E.
  - apply Nat.eqb_eq in E. rewrite <- (H d (or_introl eq_refl) E).
    destruct (q d); simpl; rewrite IH; auto.
  - destruct (q d); simpl; rewrite IH; auto.
Qed.

Lemma replace_request_same (n : ObjectId) (l : list VerificationRequest)
    (r : VerificationRequest) :
  keyed req_id n l -> In r l -> replace_request r l = l.
Proof.
  intros Hk Hr. unfold replace_request. rewrite <- (map_id l) at 2.
  apply map_ext_in. intros d Hd.
  destruct (Nat.eqb (req_id d) (req_id r)) eqn:E; [|reflexivity].
  apply Nat.eqb_eq in E. symmetry. eapply keyed_unique; eauto.
Qed.

(** *** What a method keeps true of the world *)

Lemma preserves_ret {A} (P : World -> Prop) (a : A) : preserves P (ret a).
Proof. intros w H. exact H. Qed.

Lemma preserves_throw {A} (P : World -> Prop) (e : Error) : preserves P (@throw A e).
Proof. intros w H. exact H. Qed.

Lemma preserves_bind {A B} (P : World -> Prop) (m : M A) (k : A -> M B) :
  preserves P m -> (forall a, preserves P (k a)) -> preserves P (bind m k).
Proof.
  intros Hm Hk w H. unfold bind. specialize (Hm w H).
  destruct (m w) as [w' [a|e]]; simpl in *; [now apply Hk | exact Hm].
Qed.

Lemma preserves_deref {A} (P : World -> Prop) (o : option A) : preserves P (deref o).
Proof. destruct o; [apply preserves_ret | apply preserves_throw]. Qed.

Lemma preserves_assert_some {A} (P : World -> Prop) (o : option A) :
  preserves P (assert_some o).
Proof. destruct o; [apply preserves_ret | apply preserves_throw]. Qed.

Lemma preserves_if {A} (P : World -> Prop) (b : bool) (m m' : M A) :
  preserves P m -> preserves P m' -> preserves P (if b then m else m').
Proof. destruct b; trivial. Qed.

Create HintDb preserve.
#[local] Hint Resolve preserves_ret preserves_throw preserves_deref
  preserves_assert_some preserves_if : preserve.

Ltac preserve :=
  repeat first
    [ apply preserves_bind; [|intros ?]
    | progress auto with preserve
    | match goal with
      | |- preserves _ (match ?o with _ => _ end) => destruct o
      | |- preserves _ (let (_, _) := ?p in _) => destruct p
      end ].

(** *** Running a method *)

Lemma bind_run {A B} (m : M A) (k : A -> M B) (w : World) :
  bind m k w =
  match m w with
  | (w', Return a) => k a w'
  | (w', Throw e) => (w', Throw e)
  end.
Proof. reflexivity. Qed.

Lemma bind_return {A B} (m : M A) (k : A -> M B) (w w' : World) (a : A) :
  m w = (w', Return a) -> bind m k w = k a w'.
Proof. intros H. unfold bind. now rewrite H. Qed.

Lemma world_ext (w w' : World) :
  users w = users w' -> signatures w = signatures w' -> tokens w = tokens w' ->
  checks w = checks w' -> requests w = requests w' -> nextId w = nextId w' ->
  trace w = trace w' -> w = w'.
Proof. destruct w, w'; simpl; intros; subst; reflexivity. Qed.

Ltac world_eq :=
  apply world_ext; simpl; rewrite <- ?app_assoc; simpl; try reflexivity.

(** *** Well-formedness is kept by every storage call *)

Lemma wf_Request_findOne user level status :
  preserves wf (Request_findOne user level status).
Proof. intros w H. exact H. Qed.

Lemma wf_Check_findOne user type payload check :
  preserves wf (Check_findOne user type payload check).
Proof. intros w H. exact H. Qed.

Lemma wf_Token_findOne token : preserves wf (Token_findOne token).
Proof. intros w H. exact H. Qed.

Lemma wf_Signature_findOne value type : preserves wf (Signature_findOne value type).
Proof. intros w H. exact H. Qed.

Lemma wf_Signature_findById id : preserves wf (Signature_findById id).
Proof. intros w H. exact H. Qed.

Lemma wf_Request_save r : preserves wf (Request_save r).
Proof.
  intros w (Hu & Hs & Ht & Hc & Hr). unfold wf. simpl.
  refine (conj _ (conj _ (conj _ (conj _ _)))); try assumption.
  eapply keyed_same_keys; [apply replace_request_keys | exact Hr].
Qed.

Lemma wf_Request_create doc :
  (forall id, req_id (doc id) = id) -> preserves wf (Request_create doc).
Proof.
  intros Hid w (Hu & Hs & Ht & Hc & Hr). unfold wf. simpl.
  refine (conj _ (conj _ (conj _ (conj _ _)))); try (eapply keyed_mono; [eassumption | lia]).
  apply keyed_fresh; auto.
Qed.

Lemma wf_Check_create genCheck user type payload :
  preserves wf (Check_create genCheck user type payload).
Proof.
  intros w (Hu & Hs & Ht & Hc & Hr). unfold wf. simpl.
  refine (conj _ (conj _ (conj _ (conj _ _)))); try (eapply keyed_mono; [eassumption | lia]).
  apply keyed_fresh; auto.
Qed.

Lemma wf_User_create name : preserves wf (User_create name).
Proof.
  intros w (Hu & Hs & Ht & Hc & Hr). unfold wf. simpl.
  refine (conj _ (conj _ (conj _ (conj _ _)))); try (eapply keyed_mono; [eassumption | lia]).
  apply keyed_fresh; auto.
Qed.

Lemma wf_Signature_create user type value :
  preserves wf (Signature_create user type value).
Proof.
  intros w (Hu & Hs & Ht & Hc & Hr). unfold wf. simpl.
  refine (conj _ (conj _ (conj _ (conj _ _)))); try (eapply keyed_mono; [eassumption | lia]).
  apply keyed_fresh; auto.
Qed.

Lemma wf_Check_removeMany user type : preserves wf (Check_removeMany user type).
Proof.
  intros w (Hu & Hs & Ht & Hc & Hr). unfold wf. simpl.
  refine (conj _ (conj _ (conj _ (conj _ _)))); try assumption. now apply keyed_filter.
Qed.

Lemma wf_Check_remove c : preserves wf (Check_remove c).
Proof.
  intros w (Hu & Hs & Ht & Hc & Hr). unfold wf. simpl.
  refine (conj _ (conj _ (conj _ (conj _ _)))); try assumption. now apply keyed_filter.
Qed.

Lemma wf_Token_remove t : preserves wf (Token_remove t).
Proof.
  intros w (Hu & Hs & Ht & Hc & Hr). unfold wf. simpl.
  refine (conj _ (conj _ (conj _ (conj _ _)))); try assumption. now apply keyed_filter.
Qed.

Lemma wf_Message_send mailSend m : preserves wf (Message_send mailSend m).
Proof. intros w H. exact H. Qed.

#[local] Hint Resolve wf_Request_findOne wf_Check_findOne wf_Token_findOne
  wf_Signature_findOne wf_Signature_findById wf_Request_save wf_Check_create
  wf_User_create wf_Signature_create wf_Check_removeMany wf_Check_remove
  wf_Token_remove wf_Message_send : preserve.

Lemma wf_pending_level2 confirmed request :
  preserves wf (pending_level2 confirmed request).
Proof. unfold pending_level2. preserve. Qed.

Lemma wf_validatePhone genCheck user : preserves wf (validatePhone genCheck user).
Proof. unfold validatePhone. pose proof wf_pending_level2. preserve. Qed.

Lemma wf_validateEmail genCheck baseURL template send user :
  preserves wf (validateEmail genCheck baseURL template send user).
Proof. unfold validateEmail. pose proof wf_pending_level2. preserve. Qed.

(** *** What leaves the requests alone *)

Lemma requests_validatePhone genCheck user l :
  preserves (requests_are l) (validatePhone genCheck user).
Proof.
  unfold validatePhone, pending_level2.
  preserve; intros w H; exact H.
Qed.

Lemma requests_validateEmail genCheck baseURL template send user l :
  preserves (requests_are l) (validateEmail genCheck baseURL template send user).
Proof.
  unfold validateEmail, pending_level2.
  preserve; intros w H; exact H.
Qed.

Lemma requests_reverify genCheck baseURL template send user request l :
  preserves (requests_are l)
    (upsertLevel2_reverify genCheck baseURL template send user request).
Proof.
  unfold upsertLevel2_reverify.
  pose proof requests_validatePhone. pose proof requests_validateEmail. preserve.
Qed.

Lemma wf_reverify genCheck baseURL template send user request :
  preserves wf (upsertLevel2_reverify genCheck baseURL template send user request).
Proof.
  unfold upsertLevel2_reverify.
  pose proof wf_validatePhone. pose proof wf_validateEmail. preserve.
Qed.

(** *** The invariant under [save] and [create] *)

Lemma request_query_eq user level status r r' :
  req_user r' = req_user r -> req_level r' = req_level r ->
  req_status r' = req_status r ->
  request_query user level status r' = request_query user level status r.
Proof. unfold request_query. now intros -> -> ->. Qed.

Lemma request_query_true user level status r :
  request_query user level status r = true <->
  req_user r = user /\ req_level r = level /\ req_status r = status.
Proof.
  unfold request_query. rewrite !andb_true_iff, Nat.eqb_eq, !String.eqb_eq. tauto.
Qed.

Lemma unique_created_replace (w : World) (r r' : VerificationRequest) :
  wf w -> In r (requests w) -> req_id r' = req_id r ->
  req_user r' = req_user r -> req_level r' = req_level r ->
  req_status r' = req_status r ->
  forall user level status,
    List.length (filter (request_query user level status)
                   (replace_request r' (requests w))) =
    List.length (filter (request_query user level status) (requests w)).
Proof.
  intros Hwf Hin Hid Hu Hl Hs user level status.
  apply filter_replace_length. intros d Hd Hk.
  destruct Hwf as (_ & _ & _ & _ & Hr).
  assert (d = r) as -> by (eapply keyed_unique; eauto; congruence).
  symmetry. now apply request_query_eq.
Qed.

Lemma unique_created_append (l : list VerificationRequest) (d : VerificationRequest) :
  find (request_query (req_user d) (req_level d) "created") l = None ->
  (forall user level,
     List.length (filter (request_query user level "created") l) <= 1) ->
  forall user level,
    List.length (filter (request_query user level "created") (l ++ [d])) <= 1.
Proof.
  intros Hnone Hu user level. rewrite filter_length_app.
  destruct (request_query user level "created" d) eqn:E.
  - apply request_query_true in E as (<- & <- & _).
    now rewrite (find_none_filter _ _ Hnone).
  - specialize (Hu user level). lia.
Qed.

Lemma keeps_set_level1 v : keeps_identity (set_level1 v).
Proof. intros r. repeat split. Qed.

Lemma keeps_set_level2 v : keeps_identity (set_level2 v).
Proof. intros r. repeat split. Qed.

Lemma keeps_set_level3 v : keeps_identity (set_level3 v).
Proof. intros r. repeat split. Qed.

Lemma keeps_set_level4 v : keeps_identity (set_level4 v).
Proof. intros r. repeat split. Qed.

Lemma keeps_resubmit_level2 rm : keeps_identity (resubmit_level2 rm).
Proof. intros r. unfold resubmit_level2. destruct (req_level2 r); repeat split. Qed.

Lemma upserted_invariant user level update create (w w' : World) :
  keeps_identity update -> keeps_identity create ->
  wf w -> unique_created w -> upserted user level update create w w' ->
  unique_created w' /\
  List.length (filter (request_query user level "created") (requests w')) = 1.
Proof.
  intros Hupd Hcre Hwf Huniq. unfold upserted.
  destruct (find (request_query user level "created") (requests w)) as [r|] eqn:Hf;
    intros Hreq.
  - apply find_In in Hf as Hin. destruct Hin as [Hin Hq].
    destruct (Hupd r) as (Hid & Hu & Hl & Hs).
    split.
    + intros u l. rewrite Hreq, (unique_created_replace w r); auto.
    + rewrite Hreq, (unique_created_replace w r); auto.
      destruct (find_filter_head _ _ _ Hf) as [l' Hl'].
      specialize (Huniq user level). rewrite Hl' in *. simpl in *. lia.
  - destruct (Hcre (new_request user level (nextId w))) as (Hid & Hu & Hl & Hs).
    simpl in Hu, Hl, Hs.
    split.
    + intros u l. rewrite Hreq. apply unique_created_append; auto.
      now rewrite Hu, Hl.
    + rewrite Hreq, filter_length_app, (find_none_filter _ _ Hf). simpl.
      replace (request_query user level "created" _) with true; [reflexivity|].
      symmetry. apply request_query_true. auto.
Qed.

(** The upsert pattern shared by levels 1, 3 and 4. *)
Lemma upsert_pattern user level update create (w : World) :
  keeps_identity update -> keeps_identity create ->
  wf w -> unique_created w ->
  submitted user level update create w
    (fst ((request <- Request_findOne user level "created" ;;
           match request with
           | Some request => Request_save (update request)
           | None =>
               Request_create (fun id => create (new_request user level id)) ;;;
               ret tt
           end) w)).
Proof.
  intros Hupd Hcre Hwf Huniq.
  assert (upserted user level update create w
            (fst ((request <- Request_findOne user level "created" ;;
                   match request with
                   | Some request => Request_save (update request)
                   | None =>
                       Request_create (fun id => create (new_request user level id)) ;;;
                       ret tt
                   end) w))) as Hups.
  { unfold upserted, bind, Request_findOne. simpl.
    destruct (find (request_query user level "created") (requests w)); reflexivity. }
  destruct (upserted_invariant _ _ _ _ _ _ Hupd Hcre Hwf Huniq Hups) as [H1 H2].
  refine (conj _ (conj H1 (conj Hups H2))).
  match goal with
  | |- wf (fst (?m w)) => enough (Hp : preserves wf m) by exact (Hp w Hwf)
  end.
  apply preserves_bind; [auto with preserve|].
  intros [r|]; [auto with preserve|].
  apply preserves_bind; [|auto with preserve].
  apply wf_Request_create. intros id. now destruct (Hcre (new_request user level id)).
Qed.

Lemma upsertLevel2_upsert_upserted user rm (w : World) :
  wf w ->
  upserted (user_id user) "level-2" (resubmit_level2 rm)
    (set_level2 (submitted_level2 user rm)) w (fst (upsertLevel2_upsert user rm w)).
Proof.
  intros Hwf. unfold upserted, upsertLevel2_upsert, bind, Request_findOne. simpl.
  destruct (find (request_query (user_id user) "level-2" "created") (requests w))
    as [r|] eqn:Hf; [|reflexivity].
  unfold resubmit_level2. destruct (req_level2 r); simpl; [reflexivity|].
  symmetry. destruct Hwf as (_ & _ & _ & _ & Hr).
  eapply replace_request_same; [exact Hr|]. now apply find_In in Hf.
Qed.

Lemma wf_upsertLevel2_upsert user rm : preserves wf (upsertLevel2_upsert user rm).
Proof.
  unfold upsertLevel2_upsert. apply preserves_bind; [auto with preserve|].
  intros [r|]; [preserve|].
  apply wf_Request_create. reflexivity.
Qed.

Lemma upsertLevel2Request_fst genCheck baseURL template send user rm (w : World) :
  exists request,
    fst (upsertLevel2Request genCheck baseURL template send user rm w) =
    fst (upsertLevel2_reverify genCheck baseURL template send user request
           (fst (upsertLevel2_upsert user rm w))) \/
    fst (upsertLevel2Request genCheck baseURL template send user rm w) =
    fst (upsertLevel2_upsert user rm w).
Proof.
  unfold upsertLevel2Request. rewrite bind_run.
  destruct (upsertLevel2_upsert user rm w) as [w1 [request|e]]; simpl.
  - exists request. now left.
  - exists (new_request 0 "" 0). now right.
Qed.

Lemma upsertLevel2Request_requests genCheck baseURL template send user rm (w : World) :
  requests (fst (upsertLevel2Request genCheck baseURL template send user rm w)) =
  requests (fst (upsertLevel2_upsert user rm w)).
Proof.
  destruct (upsertLevel2Request_fst genCheck baseURL template send user rm w)
    as [request [-> | ->]]; [|reflexivity].
  now apply requests_reverify.
Qed.

Lemma wf_upsertLevel2Request genCheck baseURL template send user rm :
  preserves wf (upsertLevel2Request genCheck baseURL template send user rm).
Proof.
  unfold upsertLevel2Request. apply preserves_bind.
  - apply wf_upsertLevel2_upsert.
  - intros request. apply wf_reverify.
Qed.

(** *** [remove] by key *)

Lemma keyed_remove {A} (key : A -> ObjectId) (n : ObjectId) (l : list A) (d : A) :
  keyed key n l -> In d l ->
  ~ In d (filter (fun x => negb (Nat.eqb (key x) (key d))) l) /\
  (forall x, In x l -> x <> d ->
     In x (filter (fun x => negb (Nat.eqb (key x) (key d))) l)) /\
  List.length (filter (fun x => negb (Nat.eqb (key x) (key d))) l) + 1 = List.length l.
Proof.
  intros Hk Hd. split; [|split].
  - intros Hin. apply filter_In in Hin as [_ Hin]. now rewrite Nat.eqb_refl in Hin.
  - intros x Hx Hne. apply filter_In. split; [exact Hx|].
    destruct (Nat.eqb (key x) (key d)) eqn:E; [|reflexivity].
    apply Nat.eqb_eq in E. exfalso. apply Hne. eapply keyed_unique; eauto.
  - destruct Hk as [Hnd _]. clear n. induction l as [|x l IH]; simpl in *; [contradiction|].
    inversion Hnd as [|? ? Hx Hl]; subst.
    destruct Hd as [->|Hd].
    + rewrite Nat.eqb_refl. simpl.
      replace (filter _ l) with l; [lia|].
      symmetry. apply forallb_filter_id. apply forallb_forall. intros y Hy.
      destruct (Nat.eqb (key y) (key d)) eqn:E; [|reflexivity].
      apply Nat.eqb_eq in E. exfalso. apply Hx. rewrite <- E. now apply in_map.
    + destruct (Nat.eqb (key x) (key d)) eqn:E.
      * apply Nat.eqb_eq in E. exfalso. apply Hx. rewrite E. now apply in_map.
      * simpl. rewrite <- (IH Hl Hd). lia.
Qed.

(** No stored document has the key [create] hands out next. *)
Lemma keyed_find_fresh {A} (key : A -> ObjectId) (n m : ObjectId) (l : list A) :
  keyed key n l -> n <= m -> find (fun x => Nat.eqb (key x) m) l = None.
Proof.
  intros [_ Hlt] Hle. apply filter_nil_find.
  induction l as [|x l IH]; simpl in *; [reflexivity|].
  inversion Hlt; subst.
  destruct (Nat.eqb (key x) m) eqn:E; [apply Nat.eqb_eq in E; lia | auto].
Qed.

(** ** The claims *)

(** C1. Each of the four submit operations keeps the invariant "at most one
    request per (account, level) in status created": from a well-formed world
    in which it holds, the world after [upsertLevel1Request] ...
    [upsertLevel4Request] is well formed and satisfies it again; a pending
    request of the account and level is overwritten where it stands (same
    [_id], owner, level and status), otherwise exactly one request is
    appended; and afterwards exactly one "created" request exists for the
    account and level. *)
Theorem upsert_keeps_one_created_request :
  forall genCheck baseURL template send user rm1 rm2 rm3 rm4 (w : World),
    wf w -> unique_created w ->
    submitted (user_id user) "level-1"
      (set_level1 (resubmitted_level1 rm1)) (set_level1 (submitted_level1 rm1))
      w (fst (upsertLevel1Request user rm1 w)) /\
    submitted (user_id user) "level-2"
      (resubmit_level2 rm2) (set_level2 (submitted_level2 user rm2))
      w (fst (upsertLevel2Request genCheck baseURL template send user rm2 w)) /\
    submitted (user_id user) "level-3"
      (set_level3 (submitted_level3 rm3)) (set_level3 (submitted_level3 rm3))
      w (fst (upsertLevel3Request user rm3 w)) /\
    submitted (user_id user) "level-4"
      (set_level4 (submitted_level4 rm4)) (set_level4 (submitted_level4 rm4))
      w (fst (upsertLevel4Request user rm4 w)).
Proof.
  intros genCheck baseURL template send user rm1 rm2 rm3 rm4 w Hwf Huniq.
  split; [|split; [|split]].
  - apply upsert_pattern; auto using keeps_set_level1.
  - assert (upserted (user_id user) "level-2" (resubmit_level2 rm2)
              (set_level2 (submitted_level2 user rm2)) w
              (fst (upsertLevel2Request genCheck baseURL template send user rm2 w)))
      as Hups.
    { pose proof (upsertLevel2_upsert_upserted user rm2 w Hwf) as H.
      unfold upserted in *. rewrite upsertLevel2Request_requests. exact H. }
    destruct (upserted_invariant _ _ _ _ _ _ (keeps_resubmit_level2 rm2)
                (keeps_set_level2 (submitted_level2 user rm2)) Hwf Huniq Hups)
      as [H1 H2].
    refine (conj _ (conj H1 (conj Hups H2))). now apply wf_upsertLevel2Request.
  - apply upsert_pattern; auto using keeps_set_level3.
  - apply upsert_pattern; auto using keeps_set_level4.
Qed.


(** C9. In a well-formed world [removeToken] on a stored token value deletes
    the first token with that value and no other (the token is gone, every
    other token stays, the collection is one shorter) and returns the deleted
    record with its user populated; on a value no token has it fails with the
    error the spec calls NotFound (raised by [result.remove()] on [null]),
    and then no collection has changed and the lookup was its only call. *)
Theorem removeToken_deletes_only_that_token :
  forall token (w : World),
    wf w ->
    match find (token_query token) (tokens w) with
    | Some t =>
        snd (removeToken token w) = Return (populate_token w t) /\
        tok_token t = token /\
        ~ In t (tokens (fst (removeToken token w))) /\
        (forall t', In t' (tokens w) -> t' <> t ->
           In t' (tokens (fst (removeToken token w)))) /\
        List.length (tokens (fst (removeToken token w))) + 1 = List.length (tokens w) /\
        extends w (fst (removeToken token w)) [TokenFindOne token; TokenRemove (tok_id t)]
    | None =>
        snd (removeToken token w) = Throw NotFound /\
        same_db w (fst (removeToken token w)) /\
        extends w (fst (removeToken token w)) [TokenFindOne token]
    end.
Proof.
  intros token w Hwf.
  unfold removeToken, bind, Token_findOne, Token_remove, deref. simpl.
  destruct (find (token_query token) (tokens w)) as [t|] eqn:Hf; simpl.
  - apply find_In in Hf as [Hin Hq]. apply String.eqb_eq in Hq.
    destruct Hwf as (_ & _ & Ht & _).
    destruct (keyed_remove tok_id _ _ t Ht Hin) as (H1 & H2 & H3).
    repeat split; auto.
    unfold extends. simpl. now rewrite <- app_assoc.
  - repeat split.
Qed.

Lemma requireSignature_known type value (w : World) (s : SecuritySignature) :
  find (signature_query value type) (signatures w) = Some s ->
  requireSignature type value w =
    (emit (SignatureFindOne value type) w, Return (Some (populate_signature w s))).
Proof.
  intros Hf. unfold requireSignature, bind, Signature_findOne. simpl. now rewrite Hf.
Qed.

Lemma requireSignature_new type value (w : World) :
  wf w ->
  find (signature_query value type) (signatures w) = None ->
  let u := {| user_id := nextId w; user_name := type ++ ":" ++ value;
              user_level2 := {| UserLevel2.email := None; UserLevel2.phone := None |} |} in
  let s := {| sig_id := S (nextId w); sig_user := nextId w; sig_type := type;
              sig_value := value |} in
  requireSignature type value w =
    ({| users := users w ++ [u]; signatures := signatures w ++ [s];
        tokens := tokens w; checks := checks w; requests := requests w;
        nextId := S (S (nextId w));
        trace := trace w ++ [SignatureFindOne value type; UserCreate (nextId w);
                             SignatureCreate (S (nextId w));
                             SignatureFindById (S (nextId w))] |},
     Return (Some {| ps_signature := s; ps_user := Some u |})).
Proof.
  intros (Hu & Hs & _) Hf u s.
  unfold requireSignature, bind, Signature_findOne, User_create, Signature_create,
    Signature_findById. simpl. rewrite Hf. simpl.
  rewrite (find_app_none _ (signatures w));
    [|eapply keyed_find_fresh; [exact Hs | lia]].
  simpl. rewrite Nat.eqb_refl. simpl. unfold populate_signature, populate_user. simpl.
  rewrite (find_app_none _ (users w));
    [|eapply keyed_find_fresh; [exact Hu | lia]].
  simpl. rewrite Nat.eqb_refl. f_equal. world_eq.
Qed.

(** C7, as the code has it.  In a well-formed world two calls of
    [requireSignature] with the same (type, value) return the same signature
    with the same account populated, of that type and value.  When no
    signature with that (type, value) was stored before the first call, the
    two calls together create exactly one account, named [type:value], and
    exactly one signature bound to it; when one was stored, they create
    nothing. *)
Theorem requireSignature_twice_same_binding :
  forall type value (w : World),
    wf w ->
    let w1 := fst (requireSignature type value w) in
    let w2 := fst (requireSignature type value w1) in
    exists s,
      snd (requireSignature type value w) = Return (Some s) /\
      snd (requireSignature type value w1) = Return (Some s) /\
      sig_type (ps_signature s) = type /\ sig_value (ps_signature s) = value /\
      match find (signature_query value type) (signatures w) with
      | Some s0 =>
          ps_signature s = s0 /\ users w2 = users w /\ signatures w2 = signatures w
      | None =>
          exists u,
            users w2 = (users w ++ [u])%list /\
            signatures w2 = (signatures w ++ [ps_signature s])%list /\
            ps_user s = Some u /\ sig_user (ps_signature s) = user_id u /\
            user_name u = type ++ ":" ++ value
      end.
Proof.
  intros type value w Hwf w1 w2. subst w2 w1.
  destruct (find (signature_query value type) (signatures w)) as [s0|] eqn:Hf.
  - rewrite (requireSignature_known _ _ _ _ Hf). simpl.
    rewrite (requireSignature_known type value (emit _ w) s0 Hf). simpl.
    exists (populate_signature w s0).
    apply find_In in Hf as [_ Hq]. apply andb_true_iff in Hq as [Hv Ht].
    apply String.eqb_eq in Hv, Ht. repeat split; auto.
  - rewrite (requireSignature_new _ _ _ Hwf Hf). simpl.
    match goal with
    | |- context [requireSignature type value ?w1] =>
        rewrite (requireSignature_known type value w1
                   {| sig_id := S (nextId w); sig_user := nextId w; sig_type := type;
                      sig_value := value |})
    end.
    + simpl. eexists. split; [reflexivity|]. split.
      * unfold populate_signature, populate_user. simpl.
        destruct Hwf as (Hu & _).
        rewrite (find_app_none _ (users w));
          [|eapply keyed_find_fresh; [exact Hu | lia]].
        simpl. now rewrite Nat.eqb_refl.
      * simpl. repeat split. eexists. repeat split.
    + simpl. rewrite (find_app_none _ _ _ Hf). unfold signature_query. simpl.
      now rewrite !String.eqb_refl.
Qed.

(** C7, as stated, fails where the binding is already stored: both calls
    return it and create nothing. *)
Lemma requireSignature_bound_creates_nothing :
  wf bound_world /\ ~ two_calls_create_one "ethereum-address" "0xab" bound_world.
Proof.
  split.
  - unfold wf, keyed. simpl.
    repeat split; repeat constructor; simpl; try tauto; try lia.
  - unfold two_calls_create_one. simpl. intros [H _]. discriminate H.
Qed.

Lemma check_query_true user type payload check c :
  check_query user type payload check c = true <->
  chk_user c = user /\ chk_type c = type /\ chk_payload c = payload /\ chk_check c = check.
Proof.
  unfold check_query. rewrite !andb_true_iff, Nat.eqb_eq, !String.eqb_eq. tauto.
Qed.

(** A check found by a query has the type asked for. *)
Lemma find_check_type user type payload check (l : list SecurityCheck) c :
  find (check_query user type payload check) l = Some c ->
  In c l /\ chk_type c = type.
Proof.
  intros H. apply find_In in H as [Hin Hq]. apply check_query_true in Hq. tauto.
Qed.

(** Removing a check by key keeps the checks of every other type. *)
Lemma remove_keeps_other_type (n : ObjectId) (l : list SecurityCheck) c c' :
  keyed chk_id n l -> In c l -> In c' l -> chk_type c' <> chk_type c ->
  In c' (filter (fun d => negb (Nat.eqb (chk_id d) (chk_id c))) l).
Proof.
  intros Hk Hc Hc' Hty.
  apply (keyed_remove chk_id n l c Hk Hc); [exact Hc'|]. congruence.
Qed.

Ltac trace_delta :=
  eexists; split;
  [ unfold extends; simpl; rewrite <- ?app_assoc; simpl; reflexivity
  | repeat constructor ].

Ltac run_confirm :=
  unfold confirmLevel2Request, confirm_channel, bind, Request_findOne, assert_some,
    Check_findOne, Check_remove, Request_save, deref, ret, throw; simpl.

(** C10. [confirmLevel2Request] treats an absent or empty code as not
    attempted.  With a pending level-2 request in a well-formed world: when
    [emailCode] is falsy, any result has [isEmailTried] and [isEmailVerified]
    false, the call returns whenever the request has its level-2 payload, no
    call of the run looks up or removes a confirm-email check, and every
    stored confirm-email check is still stored; the same holds of
    [phoneCode] and confirm-phone; and when both are falsy the run is the one
    lookup of the request, returns four times false and writes nothing. *)
Theorem confirmLevel2Request_absent_code_not_attempted :
  forall user rm (w : World) r,
    wf w ->
    find (request_query (user_id user) "level-2" "created") (requests w) = Some r ->
    (truthy (ConfirmationRequestLevel2Model.emailCode rm) = false ->
     (forall res, snd (confirmLevel2Request user rm w) = Return res ->
        isEmailTried res = false /\ isEmailVerified res = false) /\
     (req_level2 r <> None ->
        exists res, snd (confirmLevel2Request user rm w) = Return res) /\
     (exists delta,
        extends w (fst (confirmLevel2Request user rm w)) delta /\
        Forall (fun e => touches_check "confirm-email" e = false) delta) /\
     (forall c, In c (checks w) -> chk_type c = "confirm-email" ->
        In c (checks (fst (confirmLevel2Request user rm w))))) /\
    (truthy (ConfirmationRequestLevel2Model.phoneCode rm) = false ->
     (forall res, snd (confirmLevel2Request user rm w) = Return res ->
        isPhoneTried res = false /\ isPhoneVerified res = false) /\
     (req_level2 r <> None ->
        exists res, snd (confirmLevel2Request user rm w) = Return res) /\
     (exists delta,
        extends w (fst (confirmLevel2Request user rm w)) delta /\
        Forall (fun e => touches_check "confirm-phone" e = false) delta) /\
     (forall c, In c (checks w) -> chk_type c = "confirm-phone" ->
        In c (checks (fst (confirmLevel2Request user rm w))))) /\
    (truthy (ConfirmationRequestLevel2Model.emailCode rm) = false ->
     truthy (ConfirmationRequestLevel2Model.phoneCode rm) = false ->
     confirmLevel2Request user rm w =
       (emit (RequestFindOne (user_id user) "level-2" "created") w,
        Return {| isEmailTried := false; isEmailVerified := false;
                  isPhoneTried := false; isPhoneVerified := false |})).
Proof.
  intros user rm w r Hwf Hf.
  assert (Hk : keyed chk_id (nextId w) (checks w)) by apply Hwf.
  split; [|split].
  - intros He. run_confirm. rewrite Hf, He. simpl.
    destruct (truthy (ConfirmationRequestLevel2Model.phoneCode rm)); simpl.
    + destruct (req_level2 r) as [l2|]; simpl.
      * destruct (find _ (checks w)) as [c|] eqn:Hc; simpl.
        -- apply find_check_type in Hc as [Hin Hty].
           repeat split.
           ++ now injection H as <-.
           ++ now injection H as <-.
           ++ eauto.
           ++ trace_delta. simpl. rewrite Hty. reflexivity.
           ++ intros c' Hc' Hty'. eapply remove_keeps_other_type; eauto. congruence.
        -- repeat split; try (now injection H as <-); eauto. trace_delta.
      * repeat split; try discriminate; try tauto. trace_delta.
    + repeat split; try (now injection H as <-); eauto. trace_delta.
  - intros Hp. run_confirm. rewrite Hf, Hp. simpl.
    destruct (truthy (ConfirmationRequestLevel2Model.emailCode rm)); simpl.
    + destruct (req_level2 r) as [l2|]; simpl.
      * destruct (find _ (checks w)) as [c|] eqn:Hc; simpl.
        -- apply find_check_type in Hc as [Hin Hty].
           repeat split.
           ++ now injection H as <-.
           ++ now injection H as <-.
           ++ eauto.
           ++ trace_delta. simpl. rewrite Hty. reflexivity.
           ++ intros c' Hc' Hty'. eapply remove_keeps_other_type; eauto. congruence.
        -- repeat split; try (now injection H as <-); eauto. trace_delta.
      * repeat split; try discriminate; try tauto. trace_delta.
    + repeat split; try (now injection H as <-); eauto. trace_delta.
  - intros He Hp. run_confirm. now rewrite Hf, He, Hp.
Qed.

(** *** Lookups in a filtered list *)

Lemma find_none_forall {A} (q : A -> bool) (l : list A) :
  (forall x, In x l -> q x = false) -> find q l = None.
Proof.
  induction l as [|x l IH]; simpl; intros H; [reflexivity|].
  rewrite (H x (or_introl eq_refl)). auto.
Qed.


Lemma filter_filter_implies {A} (p q : A -> bool) (l : list A) :
  (forall x, p x = true -> q x = true) -> filter p (filter q l) = filter p l.
Proof.
  intros H. induction l as [|x l IH]; simpl; [reflexivity|].
  destruct (q x) eqn:Eq; simpl.
  - destruct (p x); now rewrite IH.
  - destruct (p x) eqn:Ep; [|exact IH]. apply H in Ep. congruence.
Qed.

Lemma check_query_scope user type payload check c :
  check_query user type payload check c = true -> check_scope user type c = true.
Proof.
  unfold check_query, check_scope. rewrite !andb_true_iff. tauto.
Qed.

(** The one check of an account and type is the one a matching query finds,
    and once it is removed no query of that account and type finds any. *)
Lemma sole_check_found user type payload check (l : list SecurityCheck) c :
  filter (check_scope user type) l = [c] ->
  check_query user type payload check c = true ->
  find (check_query user type payload check) l = Some c.
Proof.
  intros Hs Hq. apply filter_single_find.
  rewrite <- (filter_filter_implies _ (check_scope user type)), Hs.
  - simpl. now rewrite Hq.
  - apply check_query_scope.
Qed.





(** *** The checks of an account and type after a trigger *)

Lemma filter_negb_nil {A} (p : A -> bool) (l : list A) :
  filter p (filter (fun x => negb (p x)) l) = [].
Proof.
  induction l as [|x l IH]; simpl; [reflexivity|].
  destruct (p x) eqn:E; simpl; [exact IH | now rewrite E].
Qed.

Lemma sole_check_after_issue user type (l : list SecurityCheck) c :
  check_scope user type c = true ->
  filter (check_scope user type)
    (filter (fun d => negb (check_scope user type d)) l ++ [c]) = [c].
Proof.
  intros Hc. rewrite filter_app, filter_negb_nil. simpl. now rewrite Hc.
Qed.


(** *** Running the triggers *)

Lemma validatePhone_refused genCheck user (w : World) :
  no_pending_request user w \/ pending_without_payload user w \/
  pending_confirmed Level2.isPhoneConfirmed user w ->
  validatePhone genCheck user w =
    (emit (RequestFindOne (user_id user) "level-2" "created") w, Throw IllegalState).
Proof.
  unfold validatePhone, pending_level2, bind, Request_findOne. simpl.
  intros [H | [(r & H & Hl) | (r & l2 & H & Hl & Hc)]]; rewrite H; simpl;
    rewrite ?Hl; simpl; rewrite ?Hc; reflexivity.
Qed.

Lemma validateEmail_refused genCheck baseURL template send user (w : World) :
  no_pending_request user w \/ pending_without_payload user w \/
  pending_confirmed Level2.isEmailConfirmed user w ->
  validateEmail genCheck baseURL template send user w =
    (emit (RequestFindOne (user_id user) "level-2" "created") w, Throw IllegalState).
Proof.
  unfold validateEmail, pending_level2, bind, Request_findOne. simpl.
  intros [H | [(r & H & Hl) | (r & l2 & H & Hl & Hc)]]; rewrite H; simpl;
    rewrite ?Hl; simpl; rewrite ?Hc; reflexivity.
Qed.

Lemma validatePhone_issues genCheck user (w : World) l2 :
  pending_unconfirmed Level2.isPhoneConfirmed user w l2 ->
  validatePhone genCheck user w =
    ({| users := users w; signatures := signatures w; tokens := tokens w;
        checks :=
          filter (fun c => negb (check_scope (user_id user) "confirm-phone" c)) (checks w)
          ++ [issued_check genCheck user "confirm-phone" (Level2.phone l2) w];
        requests := requests w; nextId := S (nextId w);
        trace := trace w ++
          [RequestFindOne (user_id user) "level-2" "created";
           CheckRemoveMany (user_id user) "confirm-phone";
           CheckCreate (nextId w) (user_id user) "confirm-phone"] |},
     Return tt).
Proof.
  intros (r & H & Hl & Hc).
  unfold validatePhone, pending_level2, bind, Request_findOne, Check_removeMany,
    Check_create, ret. simpl.
  rewrite H. simpl. rewrite Hl. simpl. rewrite Hc. simpl.
  f_equal. world_eq.
Qed.

Lemma validateEmail_issues genCheck baseURL template send user (w : World) l2 :
  pending_unconfirmed Level2.isEmailConfirmed user w l2 ->
  exists m delivered,
    validateEmail genCheck baseURL template send user w =
      ({| users := users w; signatures := signatures w; tokens := tokens w;
          checks :=
            filter (fun c => negb (check_scope (user_id user) "confirm-email" c)) (checks w)
            ++ [issued_check genCheck user "confirm-email" (Level2.email l2) w];
          requests := requests w; nextId := S (nextId w);
          trace := trace w ++
            [RequestFindOne (user_id user) "level-2" "created";
             CheckRemoveMany (user_id user) "confirm-email";
             CheckCreate (nextId w) (user_id user) "confirm-email";
             MailSend m] |},
       if delivered : bool then Return tt else Throw DispatchError) /\
    msg_to m = Level2.email l2.
Proof.
  intros (r & H & Hl & Hc).
  unfold validateEmail, pending_level2, bind, Request_findOne, Check_removeMany,
    Check_create, Message_send, ret. simpl.
  rewrite H. simpl. rewrite Hl. simpl. rewrite Hc. simpl.
  destruct (template baseURL (user_name user) (genCheck (nextId w))) as [subject content].
  simpl. do 2 eexists. split; [f_equal; world_eq | reflexivity].
Qed.

(** Every world is in one of the four states of the guard. *)
Lemma pending_cases (confirmed : Level2.t -> bool) user (w : World) :
  (no_pending_request user w \/ pending_without_payload user w \/
   pending_confirmed confirmed user w) \/
  exists l2, pending_unconfirmed confirmed user w l2.
Proof.
  unfold no_pending_request, pending_without_payload, pending_confirmed,
    pending_unconfirmed.
  destruct (find _ (requests w)) as [r|]; [|now left; left].
  destruct (req_level2 r) as [l2|] eqn:Hl; [|left; right; left; eauto].
  destruct (confirmed l2) eqn:Hc.
  - left. right. right. eauto.
  - right. eauto.
Qed.





(** *** Running the level-2 submission *)

Lemma upsertLevel2_upsert_update user rm (w : World) r old :
  find (request_query (user_id user) "level-2" "created") (requests w) = Some r ->
  req_level2 r = Some old ->
  upsertLevel2_upsert user rm w =
    ({| users := users w; signatures := signatures w; tokens := tokens w;
        checks := checks w;
        requests := replace_request (set_level2 (resubmitted_level2 rm old) r) (requests w);
        nextId := nextId w;
        trace := trace w ++ [RequestFindOne (user_id user) "level-2" "created";
                             RequestSave (req_id r)] |},
     Return (set_level2 (resubmitted_level2 rm old) r)).
Proof.
  intros Hf Hl. unfold upsertLevel2_upsert, bind, Request_findOne, Request_save, deref, ret.
  simpl. rewrite Hf. simpl. rewrite Hl. simpl. f_equal. world_eq.
Qed.

Lemma upsertLevel2_upsert_create user rm (w : World) :
  find (request_query (user_id user) "level-2" "created") (requests w) = None ->
  upsertLevel2_upsert user rm w =
    ({| users := users w; signatures := signatures w; tokens := tokens w;
        checks := checks w;
        requests := requests w ++
          [set_level2 (submitted_level2 user rm)
             (new_request (user_id user) "level-2" (nextId w))];
        nextId := S (nextId w);
        trace := trace w ++ [RequestFindOne (user_id user) "level-2" "created";
                             RequestCreate (nextId w)] |},
     Return (set_level2 (submitted_level2 user rm)
               (new_request (user_id user) "level-2" (nextId w)))).
Proof.
  intros Hf. unfold upsertLevel2_upsert, bind, Request_findOne, Request_create.
  simpl. rewrite Hf. simpl. f_equal. world_eq.
Qed.

Lemma upsertLevel2_reverify_run genCheck baseURL template send user request new (w : World) :
  find (request_query (user_id user) "level-2" "created") (requests w) = Some request ->
  req_level2 request = Some new ->
  let run := upsertLevel2_reverify genCheck baseURL template send user request w in
  exists delta,
    extends w (fst run) delta /\
    issued "confirm-phone" delta = (if Level2.isPhoneConfirmed new then 0 else 1) /\
    issued "confirm-email" delta = (if Level2.isEmailConfirmed new then 0 else 1) /\
    (snd run = Return tt \/ snd run = Throw DispatchError) /\
    (Level2.isPhoneConfirmed new = false -> Level2.isEmailConfirmed new = true ->
     snd run = Return tt /\
     checks (fst run) =
       (filter (fun c => negb (check_scope (user_id user) "confirm-phone" c)) (checks w)
        ++ [issued_check genCheck user "confirm-phone" (Level2.phone new) w])%list).
Proof.
  intros Hf Hl run. subst run. unfold upsertLevel2_reverify.
  rewrite bind_run, Hl. unfold deref, ret. cbv beta iota.
  destruct (Level2.isPhoneConfirmed new) eqn:Hp;
    destruct (Level2.isEmailConfirmed new) eqn:He; simpl negb; cbv beta iota.
  - rewrite bind_run. cbv beta iota. exists []. unfold extends. rewrite app_nil_r.
    repeat split; auto; discriminate.
  - rewrite bind_run. cbv beta iota.
    destruct (validateEmail_issues genCheck baseURL template send user w new)
      as (m & d & Hrun & _); [exists request; auto|].
    rewrite Hrun. simpl. eexists. split; [reflexivity|].
    split; [reflexivity|]. split; [reflexivity|].
    split; [destruct d; auto | discriminate].
  - rewrite bind_run, (validatePhone_issues genCheck user w new); [|exists request; auto].
    cbv beta iota. simpl. eexists. split; [reflexivity|].
    repeat split; auto.
  - rewrite bind_run, (validatePhone_issues genCheck user w new); [|exists request; auto].
    cbv beta iota.
    match goal with
    | |- context [validateEmail _ _ _ _ _ ?w1] =>
        destruct (validateEmail_issues genCheck baseURL template send user w1 new)
          as (m & d & Hrun & _); [exists request; auto|]
    end.
    rewrite Hrun. simpl. eexists. split.
    { unfold extends. simpl. rewrite <- app_assoc. simpl. reflexivity. }
    split; [reflexivity|]. split; [reflexivity|].
    split; [destruct d; auto | discriminate].
Qed.

Lemma issued_app type (t t' : list Event) :
  issued type (t ++ t') = issued type t + issued type t'.
Proof. unfold issued. now rewrite filter_app, length_app. Qed.

Lemma extends_trans (w w1 w2 : World) (d1 d2 : list Event) :
  extends w w1 d1 -> extends w1 w2 d2 -> extends w w2 (d1 ++ d2).
Proof. unfold extends. intros H1 H2. now rewrite H2, H1, app_assoc. Qed.

(** The whole submission, once the upsert has left [request] in memory and
    in store. *)
Lemma upsertLevel2Request_run genCheck baseURL template send user rm
    (w w1 : World) request new d1 :
  upsertLevel2_upsert user rm w = (w1, Return request) ->
  extends w w1 d1 ->
  issued "confirm-phone" d1 = 0 -> issued "confirm-email" d1 = 0 ->
  find (request_query (user_id user) "level-2" "created") (requests w1) = Some request ->
  req_level2 request = Some new ->
  let run := upsertLevel2Request genCheck baseURL template send user rm w in
  exists delta,
    extends w (fst run) delta /\
    issued "confirm-phone" delta = (if Level2.isPhoneConfirmed new then 0 else 1) /\
    issued "confirm-email" delta = (if Level2.isEmailConfirmed new then 0 else 1) /\
    find (request_query (user_id user) "level-2" "created") (requests (fst run)) =
      Some request /\
    (snd run = Return tt \/ snd run = Throw DispatchError) /\
    (Level2.isPhoneConfirmed new = false -> Level2.isEmailConfirmed new = true ->
     snd run = Return tt /\
     checks (fst run) =
       (filter (fun c => negb (check_scope (user_id user) "confirm-phone" c)) (checks w1)
        ++ [issued_check genCheck user "confirm-phone" (Level2.phone new) w1])%list).
Proof.
  intros Hups Hext Hp0 He0 Hf Hl run. subst run.
  unfold upsertLevel2Request. rewrite (bind_return _ _ _ _ _ Hups).
  destruct (upsertLevel2_reverify_run genCheck baseURL template send user request new
              w1 Hf Hl) as (delta & Hd & Hp & He & Hout & Hpart).
  exists (d1 ++ delta)%list.
  split; [eapply extends_trans; eauto|].
  split; [rewrite issued_app, Hp0; exact Hp|].
  split; [rewrite issued_app, He0; exact He|].
  split; [|split; assumption].
  rewrite (requests_reverify genCheck baseURL template send user request (requests w1) w1
             eq_refl).
  exact Hf.
Qed.

Lemma upsertLevel2Request_update_run genCheck baseURL template send user rm
    (w : World) r old :
  find (request_query (user_id user) "level-2" "created") (requests w) = Some r ->
  req_level2 r = Some old ->
  let new := resubmitted_level2 rm old in
  let run := upsertLevel2Request genCheck baseURL template send user rm w in
  exists delta,
    extends w (fst run) delta /\
    issued "confirm-phone" delta = (if Level2.isPhoneConfirmed new then 0 else 1) /\
    issued "confirm-email" delta = (if Level2.isEmailConfirmed new then 0 else 1) /\
    find (request_query (user_id user) "level-2" "created") (requests (fst run)) =
      Some (set_level2 new r) /\
    (snd run = Return tt \/ snd run = Throw DispatchError) /\
    (Level2.isPhoneConfirmed new = false -> Level2.isEmailConfirmed new = true ->
     snd run = Return tt /\
     checks (fst run) =
       (filter (fun c => negb (check_scope (user_id user) "confirm-phone" c)) (checks w)
        ++ [issued_check genCheck user "confirm-phone"
              (VerificationRequestLevel2Model.phone rm) w])%list).
Proof.
  intros Hf Hl new run.
  assert (Hq : request_query (user_id user) "level-2" "created" (set_level2 new r) = true).
  { apply find_In in Hf as [_ Hq]. exact Hq. }
  destruct (upsertLevel2Request_run genCheck baseURL template send user rm w _
              (set_level2 new r) new
              [RequestFindOne (user_id user) "level-2" "created"; RequestSave (req_id r)]
              (upsertLevel2_upsert_update user rm w r old Hf Hl))
    as (delta & H1 & H2 & H3 & H4 & H5 & H6); try reflexivity.
  - simpl. exact (find_replace _ _ r _ Hf Hq eq_refl).
  - exists delta. auto 10.
Qed.

Lemma upsertLevel2Request_create_run genCheck baseURL template send user rm (w : World) :
  find (request_query (user_id user) "level-2" "created") (requests w) = None ->
  let new := submitted_level2 user rm in
  let request := set_level2 new (new_request (user_id user) "level-2" (nextId w)) in
  let run := upsertLevel2Request genCheck baseURL template send user rm w in
  exists delta,
    extends w (fst run) delta /\
    issued "confirm-phone" delta = (if Level2.isPhoneConfirmed new then 0 else 1) /\
    issued "confirm-email" delta = (if Level2.isEmailConfirmed new then 0 else 1) /\
    find (request_query (user_id user) "level-2" "created") (requests (fst run)) =
      Some request /\
    (snd run = Return tt \/ snd run = Throw DispatchError).
Proof.
  intros Hf new request run.
  destruct (upsertLevel2Request_run genCheck baseURL template send user rm w _
              request new
              [RequestFindOne (user_id user) "level-2" "created"; RequestCreate (nextId w)]
              (upsertLevel2_upsert_create user rm w Hf))
    as (delta & H1 & H2 & H3 & H4 & H5 & _); try reflexivity.
  - simpl. rewrite (find_app_none _ _ _ Hf). unfold request_query. simpl.
    now rewrite Nat.eqb_refl.
  - exists delta. auto.
Qed.

(** C2. After [upsertLevel2Request], whether or not the mail of a trigger
    could be sent: when the account had a pending request (with its level-2
    payload), that request now carries the submitted email and phone, its
    [isEmailConfirmed] is the previous one if the submitted email equals the
    previous email and false otherwise, and likewise [isPhoneConfirmed] for
    the phone; when it had none, the request created carries the submitted
    values with [isEmailConfirmed] true exactly when the submitted email is
    the account's own email, and [isPhoneConfirmed] true exactly when the
    submitted phone is the account's own phone. *)
Theorem upsertLevel2Request_confirmation_flags :
  forall genCheck baseURL template send user rm (w : World),
    let w' := fst (upsertLevel2Request genCheck baseURL template send user rm w) in
    let submitted_email := VerificationRequestLevel2Model.email rm in
    let submitted_phone := VerificationRequestLevel2Model.phone rm in
    (forall r old,
       find (request_query (user_id user) "level-2" "created") (requests w) = Some r ->
       req_level2 r = Some old ->
       exists new,
         find (request_query (user_id user) "level-2" "created") (requests w') =
           Some (set_level2 new r) /\
         Level2.email new = submitted_email /\ Level2.phone new = submitted_phone /\
         (submitted_email = Level2.email old ->
          Level2.isEmailConfirmed new = Level2.isEmailConfirmed old) /\
         (submitted_email <> Level2.email old -> Level2.isEmailConfirmed new = false) /\
         (submitted_phone = Level2.phone old ->
          Level2.isPhoneConfirmed new = Level2.isPhoneConfirmed old) /\
         (submitted_phone <> Level2.phone old -> Level2.isPhoneConfirmed new = false)) /\
    (find (request_query (user_id user) "level-2" "created") (requests w) = None ->
     exists new,
       find (request_query (user_id user) "level-2" "created") (requests w') =
         Some (set_level2 new (new_request (user_id user) "level-2" (nextId w))) /\
       Level2.email new = submitted_email /\ Level2.phone new = submitted_phone /\
       (Level2.isEmailConfirmed new = true <->
        UserLevel2.email (user_level2 user) = Some submitted_email) /\
       (Level2.isPhoneConfirmed new = true <->
        UserLevel2.phone (user_level2 user) = Some submitted_phone)).
Proof.
  intros genCheck baseURL template send user rm w w' se sp. subst w' se sp. split.
  - intros r old Hf Hl.
    destruct (upsertLevel2Request_update_run genCheck baseURL template send user rm
                w r old Hf Hl) as (delta & _ & _ & _ & Hreq & _).
    exists (resubmitted_level2 rm old). split; [exact Hreq|]. simpl.
    split; [reflexivity|]. split; [reflexivity|].
    repeat split; intros H.
    + apply String.eqb_eq in H. now rewrite H.
    + apply String.eqb_neq in H. now rewrite H.
    + apply String.eqb_eq in H. now rewrite H.
    + apply String.eqb_neq in H. now rewrite H.
  - intros Hf.
    destruct (upsertLevel2Request_create_run genCheck baseURL template send user rm
                w Hf) as (delta & _ & _ & _ & Hreq & _).
    exists (submitted_level2 user rm). split; [exact Hreq|]. simpl.
    split; [reflexivity|]. split; [reflexivity|].
    unfold strict_eq_opt. split.
    + destruct (UserLevel2.email (user_level2 user)) as [e|].
      * rewrite String.eqb_eq. split; [now intros -> | now intros [= ->]].
      * split; discriminate.
    + destruct (UserLevel2.phone (user_level2 user)) as [e|].
      * rewrite String.eqb_eq. split; [now intros -> | now intros [= ->]].
      * split; discriminate.
Qed.

(** C6. After [upsertLevel2Request], with [new] the level-2 payload now on
    the account's pending request (updated when one with a payload was
    pending, created when none was): the run issues one confirm-phone check
    when [isPhoneConfirmed new] is false and none when it is true, and one
    confirm-email check when [isEmailConfirmed new] is false and none when it
    is true.  In particular, resubmitting the confirmed email of the pending
    request with another phone returns, issues exactly one confirm-phone
    check (the account's other confirm-phone checks are removed, the new one
    carries the submitted phone) and no confirm-email check. *)
Theorem upsertLevel2Request_triggers_unconfirmed_channels :
  forall genCheck baseURL template send user rm (w : World),
    let run := upsertLevel2Request genCheck baseURL template send user rm w in
    (forall r old,
       find (request_query (user_id user) "level-2" "created") (requests w) = Some r ->
       req_level2 r = Some old ->
       exists new delta,
         find (request_query (user_id user) "level-2" "created") (requests (fst run)) =
           Some (set_level2 new r) /\
         extends w (fst run) delta /\
         issued "confirm-phone" delta = (if Level2.isPhoneConfirmed new then 0 else 1) /\
         issued "confirm-email" delta = (if Level2.isEmailConfirmed new then 0 else 1) /\
         (VerificationRequestLevel2Model.email rm = Level2.email old ->
          Level2.isEmailConfirmed old = true ->
          VerificationRequestLevel2Model.phone rm <> Level2.phone old ->
          snd run = Return tt /\
          Level2.isEmailConfirmed new = true /\ Level2.isPhoneConfirmed new = false /\
          issued "confirm-phone" delta = 1 /\ issued "confirm-email" delta = 0 /\
          checks (fst run) =
            (filter (fun c => negb (check_scope (user_id user) "confirm-phone" c))
               (checks w)
             ++ [issued_check genCheck user "confirm-phone"
                   (VerificationRequestLevel2Model.phone rm) w])%list)) /\
    (find (request_query (user_id user) "level-2" "created") (requests w) = None ->
     exists new delta,
       find (request_query (user_id user) "level-2" "created") (requests (fst run)) =
         Some (set_level2 new (new_request (user_id user) "level-2" (nextId w))) /\
       extends w (fst run) delta /\
       issued "confirm-phone" delta = (if Level2.isPhoneConfirmed new then 0 else 1) /\
       issued "confirm-email" delta = (if Level2.isEmailConfirmed new then 0 else 1)).
Proof.
  intros genCheck baseURL template send user rm w run. subst run. split.
  - intros r old Hf Hl.
    destruct (upsertLevel2Request_update_run genCheck baseURL template send user rm
                w r old Hf Hl) as (delta & Hext & Hp & He & Hreq & _ & Hpart).
    exists (resubmitted_level2 rm old), delta.
    split; [exact Hreq|]. split; [exact Hext|]. split; [exact Hp|]. split; [exact He|].
    intros Hsame Hconf Hdiff.
    assert (Hnew_e : Level2.isEmailConfirmed (resubmitted_level2 rm old) = true).
    { simpl. apply String.eqb_eq in Hsame. now rewrite Hsame. }
    assert (Hnew_p : Level2.isPhoneConfirmed (resubmitted_level2 rm old) = false).
    { simpl. apply String.eqb_neq in Hdiff. now rewrite Hdiff. }
    destruct (Hpart Hnew_p Hnew_e) as [Hout Hchecks].
    rewrite Hnew_p in Hp. rewrite Hnew_e in He. auto 10.
  - intros Hf.
    destruct (upsertLevel2Request_create_run genCheck baseURL template send user rm
                w Hf) as (delta & Hext & Hp & He & Hreq & _).
    exists (submitted_level2 user rm), delta. auto.
Qed.

(** ** The claims at sample worlds *)

Lemma pending_world_wf : wf pending_world.
Proof.
  unfold wf, keyed. simpl.
  repeat split; repeat constructor; simpl; intuition (try discriminate; try lia).
Qed.

Lemma empty_world_wf : wf empty_world.
Proof. unfold wf, keyed. simpl. repeat split; constructor. Qed.

Lemma pending_world_unique_created : unique_created pending_world.
Proof.
  intros user level. simpl.
  destruct (request_query user level "created" alice_request); simpl; lia.
Qed.

(** C1 at Alice's pending world: her level-1 submission appends the one
    "created" level-1 request. *)
Lemma upsert_keeps_one_created_request_witness :
  submitted 0 "level-1"
    (set_level1 (resubmitted_level1 sample_level1))
    (set_level1 (submitted_level1 sample_level1))
    pending_world (fst (upsertLevel1Request alice sample_level1 pending_world)).
Proof.
  exact (proj1 (upsert_keeps_one_created_request sample_genCheck "" sample_template
                  sample_send alice sample_level1 sample_level2 sample_level3
                  sample_level4 pending_world pending_world_wf
                  pending_world_unique_created)).
Defined.

(** C2 at the world where Alice's email is confirmed: resubmitting the same
    email with another phone keeps the email flag and clears the phone flag. *)
Lemma upsertLevel2Request_confirmation_flags_witness :
  exists new,
    find (request_query 0 "level-2" "created")
      (requests (fst (upsertLevel2Request sample_genCheck "" sample_template sample_send
                        alice sample_level2 email_confirmed_world))) =
      Some (set_level2 new alice_request) /\
    Level2.isEmailConfirmed new = true /\ Level2.isPhoneConfirmed new = false.
Proof.
  destruct (proj1 (upsertLevel2Request_confirmation_flags sample_genCheck ""
                     sample_template sample_send alice sample_level2
                     email_confirmed_world)
              (set_level2 (set_isEmailConfirmed true alice_level2) alice_request)
              (set_isEmailConfirmed true alice_level2) eq_refl eq_refl)
    as (new & Hfind & _ & _ & Hkeep & _ & _ & Hreset).
  exists new. split; [exact Hfind|]. split.
  - exact (Hkeep eq_refl).
  - apply Hreset. discriminate.
Defined.




(** C6 at the world where Alice's email is confirmed: the same email with
    another phone issues one confirm-phone check and no confirm-email check. *)
Lemma upsertLevel2Request_triggers_unconfirmed_channels_witness :
  exists delta,
    extends email_confirmed_world
      (fst (upsertLevel2Request sample_genCheck "" sample_template sample_send
              alice sample_level2 email_confirmed_world)) delta /\
    issued "confirm-phone" delta = 1 /\ issued "confirm-email" delta = 0.
Proof.
  destruct (proj1 (upsertLevel2Request_triggers_unconfirmed_channels sample_genCheck ""
                     sample_template sample_send alice sample_level2
                     email_confirmed_world)
              (set_level2 (set_isEmailConfirmed true alice_level2) alice_request)
              (set_isEmailConfirmed true alice_level2) eq_refl eq_refl)
    as (new & delta & _ & Hext & _ & _ & Hpart).
  exists delta. split; [exact Hext|].
  destruct Hpart as (_ & _ & _ & Hp & He & _); [reflexivity | reflexivity | discriminate |].
  split; assumption.
Defined.

(** C7 in the empty world: the first call creates the binding, the second
    returns it. *)
Lemma requireSignature_twice_same_binding_witness :
  exists s,
    snd (requireSignature "ethereum-address" "0xab" empty_world) = Return (Some s) /\
    snd (requireSignature "ethereum-address" "0xab"
           (fst (requireSignature "ethereum-address" "0xab" empty_world))) =
      Return (Some s).
Proof.
  destruct (requireSignature_twice_same_binding "ethereum-address" "0xab" empty_world
              empty_world_wf) as (s & H1 & H2 & _).
  exists s. split; assumption.
Defined.

(** C9 at Alice's pending world: her token is revoked, an unknown one is
    not found. *)
Lemma removeToken_deletes_only_that_token_witness :
  snd (removeToken "t5" pending_world) = Return (populate_token pending_world alice_token) /\
  snd (removeToken "t9" pending_world) = Throw NotFound.
Proof.
  split.
  - exact (proj1 (removeToken_deletes_only_that_token "t5" pending_world pending_world_wf)).
  - exact (proj1 (removeToken_deletes_only_that_token "t9" pending_world pending_world_wf)).
Defined.

(** C10 at Alice's pending world, with no code at all. *)
Lemma confirmLevel2Request_absent_code_not_attempted_witness :
  confirmLevel2Request alice
    {| ConfirmationRequestLevel2Model.emailCode := None;
       ConfirmationRequestLevel2Model.phoneCode := Some "" |} pending_world =
    (emit (RequestFindOne 0 "level-2" "created") pending_world,
     Return {| isEmailTried := false; isEmailVerified := false;
               isPhoneTried := false; isPhoneVerified := false |}).
Proof.
  exact (proj2 (proj2 (confirmLevel2Request_absent_code_not_attempted alice
                         {| ConfirmationRequestLevel2Model.emailCode := None;
                            ConfirmationRequestLevel2Model.phoneCode := Some "" |}
                         pending_world alice_request pending_world_wf eq_refl))
           eq_refl eq_refl).
Defined.

(** C8 at Alice's pending world: the address is looked up in lowercase, and
    an address nobody signed with is not found. *)
Example selectPerson_finds_alice :
  snd (selectPerson "0xAB" pending_world) =
    Return {| person_account := Some alice; person_address := "0xab" |} /\
  snd (selectPerson "0xCD" pending_world) = Throw NotFound.
Proof. split; reflexivity. Qed.

(** After two phone triggers at Alice's pending world the code of the first
    ("c6") no longer confirms and the code of the second ("c7") does. *)
Example second_code_only :
  let w2 := fst (validatePhone sample_genCheck alice
                   (fst (validatePhone sample_genCheck alice pending_world))) in
  option_map isPhoneVerified
    (match snd (confirmLevel2Request alice (phone_code_only "c6") w2) with
     | Return res => Some res
     | Throw _ => None
     end) = Some false /\
  option_map isPhoneVerified
    (match snd (confirmLevel2Request alice (phone_code_only "c7") w2) with
     | Return res => Some res
     | Throw _ => None
     end) = Some true.
Proof. split; reflexivity. Qed.

(** ** Further properties *)

(** *** The batch lookup *)

Lemma existsb_eqb_In (v : string) (l : list string) :
  existsb (String.eqb v) l = true <-> In v l.
Proof.
  rewrite existsb_exists. split.
  - intros (x & Hx & He). apply String.eqb_eq in He. now subst.
  - intros H. exists v. split; [exact H | apply String.eqb_refl].
Qed.


Lemma find_hd_filter {A} (q : A -> bool) (l : list A) :
  find q l = hd_error (filter q l).
Proof.
  induction l as [|x l IH]; simpl; [reflexivity|].
  destruct (q x); [reflexivity | exact IH].
Qed.

Lemma selectPersons_run addresses (w : World) :
  selectPersons addresses w =
    (w, Return (map (person_of w)
                  (filter (signature_in_query (map toLowerCase addresses)
                             "ethereum-address") (signatures w)))).
Proof.
  unfold selectPersons, bind, Signature_find, ret. simpl.
  now rewrite map_map.
Qed.


(** X2. The result of [selectPersons] depends on the set of lowercased
    addresses only: two lists with the same lowercase forms, whatever their
    order, repetitions and letter case, give the same persons in the same
    order. *)
Theorem selectPersons_same_lowercase_set :
  forall addresses addresses' (w : World),
    (forall a, In a (map toLowerCase addresses) <-> In a (map toLowerCase addresses')) ->
    selectPersons addresses w = selectPersons addresses' w.
Proof.
  intros l l' w H. rewrite !selectPersons_run. do 3 f_equal.
  apply filter_ext. intros s. unfold signature_in_query. f_equal.
  destruct (existsb (String.eqb (sig_value s)) (map toLowerCase l)) eqn:E.
  - symmetry. apply existsb_eqb_In, H, existsb_eqb_In, E.
  - destruct (existsb (String.eqb (sig_value s)) (map toLowerCase l')) eqn:E';
      [|reflexivity].
    apply existsb_eqb_In, H, existsb_eqb_In in E'. congruence.
Qed.

(** X3. [selectPerson] is the head of [selectPersons] on the one address: it
    returns the first person of that list, and fails with the error the spec
    calls NotFound exactly when the list is empty. *)
Theorem selectPerson_is_head_of_selectPersons :
  forall address (w : World),
    exists persons,
      snd (selectPersons [address] w) = Return persons /\
      snd (selectPerson address w) =
        match persons with
        | p :: _ => Return p
        | [] => Throw NotFound
        end.
Proof.
  intros address w. rewrite selectPersons_run. eexists. split; [reflexivity|].
  unfold selectPerson, bind, Signature_findOne, deref, ret, throw. simpl.
  rewrite find_hd_filter.
  replace (filter (signature_in_query [toLowerCase address] "ethereum-address")
             (signatures w))
    with (filter (signature_query (toLowerCase address) "ethereum-address")
            (signatures w)).
  - destruct (filter _ (signatures w)) as [|s l]; reflexivity.
  - apply filter_ext. intros s. unfold signature_in_query, signature_query. simpl.
    now rewrite orb_false_r.
Qed.

(** *** Binding an address and resolving it *)

(** The signatures and the populated user after [requireSignature]. *)
Lemma requireSignature_binding type value (w : World) :
  wf w ->
  exists s,
    snd (requireSignature type value w) = Return (Some (populate_signature
                                                         (fst (requireSignature type value w)) s)) /\
    find (signature_query value type)
      (signatures (fst (requireSignature type value w))) = Some s /\
    users (fst (requireSignature type value w)) =
      match find (signature_query value type) (signatures w) with
      | Some _ => users w
      | None => (users w ++ [{| user_id := nextId w; user_name := type ++ ":" ++ value;
                                user_level2 := {| UserLevel2.email := None;
                                                  UserLevel2.phone := None |} |}])%list
      end /\
    signatures (fst (requireSignature type value w)) =
      match find (signature_query value type) (signatures w) with
      | Some _ => signatures w
      | None => (signatures w ++ [s])%list
      end /\
    sig_value s = value /\ sig_type s = type.
Proof.
  intros Hwf.
  destruct (find (signature_query value type) (signatures w)) as [s0|] eqn:Hf.
  - rewrite (requireSignature_known _ _ _ _ Hf). simpl. exists s0.
    apply find_In in Hf as Hq. destruct Hq as [_ Hq].
    apply andb_true_iff in Hq as [Hv Ht]. apply String.eqb_eq in Hv, Ht.
    repeat split; auto.
  - rewrite (requireSignature_new _ _ _ Hwf Hf). simpl.
    exists {| sig_id := S (nextId w); sig_user := nextId w; sig_type := type;
              sig_value := value |}.
    split.
    + unfold populate_signature, populate_user. simpl.
      destruct Hwf as (Hu & _).
      rewrite (find_app_none _ (users w));
        [|eapply keyed_find_fresh; [exact Hu | lia]].
      simpl. now rewrite Nat.eqb_refl.
    + split; [|repeat split].
      rewrite (find_app_none _ _ _ Hf). unfold signature_query. simpl.
      now rewrite !String.eqb_refl.
Qed.



(** X6. [requireSignature] keeps the signatures unique: in a well-formed
    world with at most one signature per (value, type), the world after it
    is well formed, has at most one signature per (value, type), and exactly
    one for the pair it was called with. *)
Theorem requireSignature_keeps_signatures_unique :
  forall type value (w : World),
    wf w -> unique_signature w ->
    let w1 := fst (requireSignature type value w) in
    wf w1 /\ unique_signature w1 /\
    List.length (filter (signature_query value type) (signatures w1)) = 1.
Proof.
  intros type value w Hwf Huniq w1. subst w1.
  destruct (requireSignature_binding type value w Hwf)
    as (s & _ & Hfind & _ & Hsigs & Hv & Ht).
  assert (Hwf1 : wf (fst (requireSignature type value w))).
  { revert Hwf. match goal with
    | |- wf w -> wf (fst (?m w)) => enough (Hp : preserves wf m) by exact (Hp w)
    end.
    unfold requireSignature. preserve. }
  assert (Hu1 : unique_signature (fst (requireSignature type value w))).
  { intros v t. rewrite Hsigs.
    destruct (find (signature_query value type) (signatures w)) eqn:Hf; [apply Huniq|].
    rewrite filter_length_app.
    destruct (signature_query v t s) eqn:E.
    - apply andb_true_iff in E as [E1 E2]. apply String.eqb_eq in E1, E2.
      rewrite Hv in E1. rewrite Ht in E2. subst v t.
      now rewrite (find_none_filter _ _ Hf).
    - specialize (Huniq v t). lia. }
  split; [exact Hwf1|]. split; [exact Hu1|].
  destruct (find_filter_head _ _ _ Hfind) as [l Hl].
  specialize (Hu1 value type). rewrite Hl in *. simpl in *. lia.
Qed.

(** *** Tokens *)

Lemma keyed_find_by_key {A} (key : A -> ObjectId) (n : ObjectId) (l : list A) (d : A) :
  keyed key n l -> In d l -> find (fun x => Nat.eqb (key x) (key d)) l = Some d.
Proof.
  intros Hk Hd.
  destruct (find (fun x => Nat.eqb (key x) (key d)) l) as [x|] eqn:Hf.
  - apply find_In in Hf as [Hx He]. apply Nat.eqb_eq in He.
    f_equal. eapply keyed_unique; eauto.
  - eapply find_none in Hf; [|exact Hd]. simpl in Hf. now rewrite Nat.eqb_refl in Hf.
Qed.

Lemma replace_token_same (n : ObjectId) (l : list SecurityToken) (t : SecurityToken) :
  keyed tok_id n l -> In t l -> replace_token t l = l.
Proof.
  intros Hk Ht. unfold replace_token. rewrite <- (map_id l) at 2.
  apply map_ext_in. intros d Hd.
  destruct (Nat.eqb (tok_id d) (tok_id t)) eqn:E; [|reflexivity].
  apply Nat.eqb_eq in E. symmetry. eapply keyed_unique; eauto.
Qed.

Lemma token_scope_true user purpose t :
  token_scope user purpose t = true <-> tok_user t = user /\ tok_purpose t = purpose.
Proof.
  unfold token_scope. now rewrite andb_true_iff, Nat.eqb_eq, String.eqb_eq.
Qed.

(** Removing the first match of a query by key leaves the later matches. *)
Lemma filter_after_remove {A} (key : A -> ObjectId) (q : A -> bool)
    (l : list A) (d : A) (rest : list A) :
  NoDup (map key l) -> filter q l = d :: rest ->
  filter q (filter (fun x => negb (Nat.eqb (key x) (key d))) l) = rest.
Proof.
  induction l as [|x l IH]; simpl; intros Hnd Hf; [discriminate|].
  inversion Hnd as [|? ? Hx Hl]; subst.
  destruct (q x) eqn:Hq.
  - injection Hf as -> <-. rewrite Nat.eqb_refl. simpl. f_equal.
    apply forallb_filter_id, forallb_forall. intros y Hy.
    destruct (Nat.eqb (key y) (key d)) eqn:E; [|reflexivity].
    apply Nat.eqb_eq in E. exfalso. apply Hx. rewrite <- E. now apply in_map.
  - assert (Hd : In d l).
    { assert (In d (filter q l)) as H by (rewrite Hf; now left).
      now apply filter_In in H. }
    destruct (Nat.eqb (key x) (key d)) eqn:E.
    + apply Nat.eqb_eq in E. exfalso. apply Hx. rewrite E. now apply in_map.
    + simpl. rewrite Hq. now apply IH.
Qed.

Lemma upsertToken_known genToken user purpose (w : World) t :
  wf w ->
  find (token_scope (user_id user) purpose) (tokens w) = Some t ->
  upsertToken genToken user purpose w = (w, Return (Some (populate_token w t))).
Proof.
  intros (_ & _ & Hk & _) Hf. apply find_In in Hf as Hin. destruct Hin as [Hin _].
  unfold upsertToken, bind, Token_findOne_scope, Token_save, Token_findById, ret. simpl.
  rewrite Hf. simpl.
  rewrite (replace_token_same _ _ _ Hk Hin), (keyed_find_by_key _ _ _ _ Hk Hin).
  f_equal. now destruct w.
Qed.

Lemma upsertToken_new genToken user purpose (w : World) :
  wf w ->
  find (token_scope (user_id user) purpose) (tokens w) = None ->
  let t := {| tok_id := nextId w; tok_user := user_id user; tok_purpose := purpose;
              tok_token := genToken (nextId w) |} in
  upsertToken genToken user purpose w =
    ({| users := users w; signatures := signatures w; tokens := tokens w ++ [t];
        checks := checks w; requests := requests w; nextId := S (nextId w);
        trace := trace w |},
     Return (Some (populate_token w t))).
Proof.
  intros (_ & _ & Hk & _) Hf t.
  unfold upsertToken, bind, Token_findOne_scope, Token_create, Token_findById, ret. simpl.
  rewrite Hf. simpl.
  rewrite (find_app_none _ (tokens w)); [|eapply keyed_find_fresh; [exact Hk | lia]].
  simpl. now rewrite Nat.eqb_refl.
Qed.

Lemma wf_Token_save t : preserves wf (Token_save t).
Proof.
  intros w (Hu & Hs & Ht & Hc & Hr). unfold wf. simpl.
  refine (conj _ (conj _ (conj _ (conj _ _)))); try assumption.
  eapply keyed_same_keys; [|exact Ht].
  unfold replace_token. rewrite map_map. apply map_ext. intros d.
  destruct (Nat.eqb (tok_id d) (tok_id t)) eqn:E; [|reflexivity].
  apply Nat.eqb_eq in E. now rewrite E.
Qed.

Lemma wf_upsertToken genToken user purpose :
  preserves wf (upsertToken genToken user purpose).
Proof.
  unfold upsertToken. apply preserves_bind; [intros w H; exact H|].
  intros [t|].
  - apply preserves_bind; [|intros ? w H; exact H].
    apply preserves_bind; [|intros; apply preserves_ret].
    apply wf_Token_save.
  - apply preserves_bind; [|intros ? w H; exact H].
    intros w (Hu & Hs & Ht & Hc & Hr). unfold wf. simpl.
    refine (conj _ (conj _ (conj _ (conj _ _))));
      try (eapply keyed_mono; [eassumption | lia]).
    apply keyed_fresh; auto.
Qed.

(** X7. [findToken] only reads, and [removeToken] acts on what it finds:
    when [findToken] returns a token, [removeToken] on the same value returns
    that same record, which holds the value; when it returns [null],
    [removeToken] fails with the error the spec calls NotFound. *)
Theorem removeToken_acts_on_what_findToken_finds :
  forall token (w : World),
    same_db w (fst (findToken token w)) /\
    match snd (findToken token w) with
    | Return (Some t) =>
        snd (removeToken token w) = Return t /\ tok_token (pt_token t) = token
    | Return None => snd (removeToken token w) = Throw NotFound
    | Throw _ => False
    end.
Proof.
  intros token w. split; [repeat split|].
  unfold findToken, removeToken, bind, Token_findOne, Token_remove, deref, ret. simpl.
  destruct (find (token_query token) (tokens w)) as [t|] eqn:Hf; simpl.
  - split; [reflexivity|]. apply find_In in Hf as [_ Hq]. now apply String.eqb_eq in Hq.
  - reflexivity.
Qed.

(** X8. [removeToken] deletes the first token holding the value and no
    later one: in a well-formed world where the tokens holding the value are
    [t :: rest], [findToken] on that value afterwards returns the head of
    [rest], that is [null] when the value was held once. *)
Theorem findToken_after_removeToken :
  forall token (w : World) t rest,
    wf w ->
    filter (token_query token) (tokens w) = t :: rest ->
    snd (findToken token (fst (removeToken token w))) =
      Return (option_map (populate_token w) (hd_error rest)).
Proof.
  intros token w t rest (_ & _ & [Hnd _] & _) Hf.
  assert (Hfind : find (token_query token) (tokens w) = Some t)
    by (rewrite find_hd_filter, Hf; reflexivity).
  unfold findToken, removeToken, bind, Token_findOne, Token_remove, deref, ret. simpl.
  rewrite Hfind. simpl.
  now rewrite find_hd_filter, (filter_after_remove tok_id _ _ t rest Hnd Hf).
Qed.


Lemma wf_removeToken token : preserves wf (removeToken token).
Proof. unfold removeToken. preserve. Qed.

(** X10. [upsertToken] keeps the tokens unique: in a well-formed world with
    at most one token per (account, purpose), the world after it is well
    formed, has at most one token per (account, purpose), and exactly one
    for the pair it was called with. *)
Theorem upsertToken_keeps_tokens_unique :
  forall genToken user purpose (w : World),
    wf w -> unique_token w ->
    let w1 := fst (upsertToken genToken user purpose w) in
    wf w1 /\ unique_token w1 /\
    List.length (filter (token_scope (user_id user) purpose) (tokens w1)) = 1.
Proof.
  intros genToken user purpose w Hwf Huniq w1. subst w1.
  split; [now apply wf_upsertToken|].
  destruct (find (token_scope (user_id user) purpose) (tokens w)) as [t0|] eqn:Hf.
  - rewrite (upsertToken_known genToken _ _ _ _ Hwf Hf). simpl.
    split; [exact Huniq|].
    destruct (find_filter_head _ _ _ Hf) as [l Hl].
    specialize (Huniq (user_id user) purpose). rewrite Hl in *. simpl in *. lia.
  - pose proof (upsertToken_new genToken user purpose w Hwf Hf) as Hrun.
    simpl in Hrun. rewrite Hrun. simpl. split.
    + intros u p. simpl. rewrite filter_length_app.
      match goal with |- context [token_scope u p ?t] =>
        destruct (token_scope u p t) eqn:E end.
      * apply token_scope_true in E as [<- <-]. simpl.
        now rewrite (find_none_filter _ _ Hf).
      * specialize (Huniq u p). lia.
    + rewrite filter_length_app, (find_none_filter _ _ Hf). unfold token_scope. simpl.
      now rewrite Nat.eqb_refl, String.eqb_refl.
Qed.

(** X11. Revocation ends a token: in a well-formed world, let [upsertToken]
    return a token whose value no other stored token holds.  [removeToken]
    on that value returns this token and removes it, and the next
    [upsertToken] for the same account and purpose returns a token with
    another [_id]. *)
Theorem upsertToken_after_removeToken_is_another :
  forall genToken user purpose (w : World) t,
    wf w ->
    snd (upsertToken genToken user purpose w) = Return (Some t) ->
    let w1 := fst (upsertToken genToken user purpose w) in
    filter (token_query (tok_token (pt_token t))) (tokens w1) = [pt_token t] ->
    let w2 := fst (removeToken (tok_token (pt_token t)) w1) in
    snd (removeToken (tok_token (pt_token t)) w1) = Return t /\
    ~ In (pt_token t) (tokens w2) /\
    exists t2,
      snd (upsertToken genToken user purpose w2) = Return (Some t2) /\
      tok_id (pt_token t2) <> tok_id (pt_token t).
Proof.
  intros genToken user purpose w t Hwf Hout w1 Hsole w2.
  assert (Hwf1 : wf w1) by now apply wf_upsertToken.
  assert (Hwf2 : wf w2) by now apply wf_removeToken.
  assert (Hin : In (pt_token t) (tokens w1)).
  { assert (In (pt_token t) (filter (token_query (tok_token (pt_token t))) (tokens w1)))
      as H by (rewrite Hsole; now left).
    now apply filter_In in H. }
  assert (Hpop : populate_token w1 (pt_token t) = t).
  { subst w1. revert Hout.
    destruct (find (token_scope (user_id user) purpose) (tokens w)) as [t0|] eqn:Hf.
    - rewrite (upsertToken_known genToken _ _ _ _ Hwf Hf). simpl. now intros [= <-].
    - pose proof (upsertToken_new genToken user purpose w Hwf Hf) as Hrun.
      simpl in Hrun. rewrite Hrun. simpl. now intros [= <-]. }
  assert (Hrm : removeToken (tok_token (pt_token t)) w1 =
                (emit (TokenRemove (tok_id (pt_token t)))
                   (with_tokens
                      (filter (fun d => negb (Nat.eqb (tok_id d) (tok_id (pt_token t))))
                         (tokens w1))
                      (emit (TokenFindOne (tok_token (pt_token t))) w1)),
                 Return t)).
  { unfold removeToken, bind, Token_findOne, Token_remove, deref, ret. simpl.
    rewrite (filter_single_find _ _ _ Hsole). simpl. now rewrite Hpop. }
  assert (Htok2 : tokens w2 =
                  filter (fun d => negb (Nat.eqb (tok_id d) (tok_id (pt_token t))))
                    (tokens w1)).
  { subst w2. now rewrite Hrm. }
  assert (Hnext : nextId w2 = nextId w1).
  { subst w2. now rewrite Hrm. }
  split; [now rewrite Hrm|]. split.
  { rewrite Htok2. intros H. apply filter_In in H as [_ H].
    now rewrite Nat.eqb_refl in H. }
  destruct (find (token_scope (user_id user) purpose) (tokens w2)) as [t'|] eqn:Hf.
  - rewrite (upsertToken_known genToken _ _ _ _ Hwf2 Hf). simpl.
    eexists. split; [reflexivity|]. simpl.
    apply find_In in Hf as [Hf _]. rewrite Htok2 in Hf.
    apply filter_In in Hf as [_ Hf]. apply negb_true_iff, Nat.eqb_neq in Hf. exact Hf.
  - pose proof (upsertToken_new genToken user purpose w2 Hwf2 Hf) as Hrun.
    simpl in Hrun. rewrite Hrun. simpl.
    eexists. split; [reflexivity|]. simpl. rewrite Hnext.
    destruct Hwf1 as (_ & _ & [_ Hlt] & _).
    rewrite Forall_forall in Hlt.
    specialize (Hlt (tok_id (pt_token t)) (in_map tok_id _ _ Hin)). lia.
Qed.

(** *** Confirmation *)

(** X12. [confirmLevel2Request] needs a pending request with its payload.
    Without a pending level-2 request it fails on its assertion (the spec's
    PreconditionFailed) after the one lookup of the request; with a pending
    request that has no level-2 payload and at least one code submitted it
    fails with the [TypeError] of reading the payload.  Either way no check
    is looked up or removed and nothing is saved, whatever codes were
    submitted. *)
Theorem confirmLevel2Request_needs_pending_payload :
  forall user rm (w : World),
    (find (request_query (user_id user) "level-2" "created") (requests w) = None ->
     confirmLevel2Request user rm w =
       (emit (RequestFindOne (user_id user) "level-2" "created") w,
        Throw PreconditionFailed)) /\
    (forall r,
       find (request_query (user_id user) "level-2" "created") (requests w) = Some r ->
       req_level2 r = None ->
       truthy (ConfirmationRequestLevel2Model.emailCode rm)
       || truthy (ConfirmationRequestLevel2Model.phoneCode rm) = true ->
       confirmLevel2Request user rm w =
         (emit (RequestFindOne (user_id user) "level-2" "created") w, Throw TypeError)).
Proof.
  intros user rm w. split.
  - intros Hf. run_confirm. now rewrite Hf.
  - intros r Hf Hl Hcode. run_confirm. rewrite Hf. simpl.
    destruct (truthy (ConfirmationRequestLevel2Model.emailCode rm)); simpl.
    + now rewrite Hl.
    + simpl in Hcode. rewrite Hcode, Hl. reflexivity.
Qed.

Lemma sole_check_scope user type (l : list SecurityCheck) c :
  filter (check_scope user type) l = [c] ->
  In c l /\ chk_user c = user /\ chk_type c = type.
Proof.
  intros Hs.
  assert (In c (filter (check_scope user type) l)) as Hin by (rewrite Hs; now left).
  apply filter_In in Hin as [Hin Hq]. unfold check_scope in Hq.
  apply andb_true_iff in Hq as [Hu Ht].
  apply Nat.eqb_eq in Hu. apply String.eqb_eq in Ht. auto.
Qed.

Lemma sole_check_query user type (l : list SecurityCheck) c :
  filter (check_scope user type) l = [c] ->
  check_query user type (chk_payload c) (chk_check c) c = true.
Proof.
  intros Hs. destruct (sole_check_scope _ _ _ _ Hs) as (_ & Hu & Ht).
  apply check_query_true. auto.
Qed.

(** No check of the account and type is left once its only one is removed. *)
Lemma sole_check_gone user type (l : list SecurityCheck) c :
  filter (check_scope user type) l = [c] ->
  filter (check_scope user type)
    (filter (fun d => negb (Nat.eqb (chk_id d) (chk_id c))) l) = [].
Proof.
  intros Hs. apply find_none_filter, find_none_forall. intros x Hx.
  apply filter_In in Hx as [Hx Hid].
  destruct (check_scope user type x) eqn:Hq; [|reflexivity].
  assert (In x (filter (check_scope user type) l)) as Hin by (apply filter_In; auto).
  rewrite Hs in Hin. destruct Hin as [<-|[]]. now rewrite Nat.eqb_refl in Hid.
Qed.

Lemma confirm_phone_success user (w : World) r l2 c :
  find (request_query (user_id user) "level-2" "created") (requests w) = Some r ->
  req_level2 r = Some l2 ->
  filter (check_scope (user_id user) "confirm-phone") (checks w) = [c] ->
  chk_payload c = Level2.phone l2 ->
  chk_check c <> "" ->
  confirmLevel2Request user (phone_code_only (chk_check c)) w =
    ({| users := users w; signatures := signatures w; tokens := tokens w;
        checks := filter (fun d => negb (Nat.eqb (chk_id d) (chk_id c))) (checks w);
        requests :=
          replace_request (set_level2 (set_isPhoneConfirmed true l2) r) (requests w);
        nextId := nextId w;
        trace := trace w ++
          [RequestFindOne (user_id user) "level-2" "created";
           CheckFindOne (user_id user) "confirm-phone" (Level2.phone l2) (chk_check c);
           CheckRemove (chk_id c) "confirm-phone";
           RequestSave (req_id r)] |},
     Return {| isEmailTried := false; isEmailVerified := false;
               isPhoneTried := true; isPhoneVerified := true |}).
Proof.
  intros Hf Hl Hs Hpay Hne.
  pose proof (sole_check_query _ _ _ _ Hs) as Hq. rewrite Hpay in Hq.
  destruct (sole_check_scope _ _ _ _ Hs) as (_ & _ & Hty).
  run_confirm. rewrite Hf. simpl.
  replace (negb (chk_check c =? "")) with true
    by (symmetry; apply negb_true_iff, String.eqb_neq, Hne).
  rewrite Hl. simpl. rewrite (sole_check_found _ _ _ _ _ _ Hs Hq). simpl. rewrite Hty.
  f_equal. world_eq.
Qed.

Lemma confirm_email_success user (w : World) r l2 c :
  find (request_query (user_id user) "level-2" "created") (requests w) = Some r ->
  req_level2 r = Some l2 ->
  filter (check_scope (user_id user) "confirm-email") (checks w) = [c] ->
  chk_payload c = Level2.email l2 ->
  chk_check c <> "" ->
  confirmLevel2Request user (email_code_only (chk_check c)) w =
    ({| users := users w; signatures := signatures w; tokens := tokens w;
        checks := filter (fun d => negb (Nat.eqb (chk_id d) (chk_id c))) (checks w);
        requests :=
          replace_request (set_level2 (set_isEmailConfirmed true l2) r) (requests w);
        nextId := nextId w;
        trace := trace w ++
          [RequestFindOne (user_id user) "level-2" "created";
           CheckFindOne (user_id user) "confirm-email" (Level2.email l2) (chk_check c);
           CheckRemove (chk_id c) "confirm-email";
           RequestSave (req_id r)] |},
     Return {| isEmailTried := true; isEmailVerified := true;
               isPhoneTried := false; isPhoneVerified := false |}).
Proof.
  intros Hf Hl Hs Hpay Hne.
  pose proof (sole_check_query _ _ _ _ Hs) as Hq. rewrite Hpay in Hq.
  destruct (sole_check_scope _ _ _ _ Hs) as (_ & _ & Hty).
  run_confirm. rewrite Hf. simpl.
  replace (negb (chk_check c =? "")) with true
    by (symmetry; apply negb_true_iff, String.eqb_neq, Hne).
  rewrite Hl. simpl. rewrite (sole_check_found _ _ _ _ _ _ Hs Hq). simpl. rewrite Hty.
  f_equal. world_eq.
Qed.

Lemma pending_confirmed_after_save confirmed user (l : list VerificationRequest) r l2
    (w' : World) :
  find (request_query (user_id user) "level-2" "created") l = Some r ->
  requests w' = replace_request (set_level2 l2 r) l ->
  confirmed l2 = true ->
  pending_confirmed confirmed user w'.
Proof.
  intros Hf Hreq Hc. exists (set_level2 l2 r), l2. rewrite Hreq.
  split; [|split; [reflexivity | exact Hc]].
  apply (find_replace _ _ r); [exact Hf | | reflexivity].
  apply find_In in Hf as [_ Hq]. exact Hq.
Qed.

Lemma confirm_phone_then_refused genCheck user (w : World) r l2 c :
  find (request_query (user_id user) "level-2" "created") (requests w) = Some r ->
  req_level2 r = Some l2 ->
  filter (check_scope (user_id user) "confirm-phone") (checks w) = [c] ->
  chk_payload c = Level2.phone l2 ->
  chk_check c <> "" ->
  let w2 := fst (confirmLevel2Request user (phone_code_only (chk_check c)) w) in
  snd (confirmLevel2Request user (phone_code_only (chk_check c)) w) =
    Return {| isEmailTried := false; isEmailVerified := false;
              isPhoneTried := true; isPhoneVerified := true |} /\
  filter (check_scope (user_id user) "confirm-phone") (checks w2) = [] /\
  pending_confirmed Level2.isPhoneConfirmed user w2 /\
  snd (validatePhone genCheck user w2) = Throw IllegalState.
Proof.
  intros Hf Hl Hs Hpay Hne w2. subst w2.
  rewrite (confirm_phone_success user w r l2 c Hf Hl Hs Hpay Hne). simpl.
  split; [reflexivity|]. split; [now apply sole_check_gone|].
  match goal with
  | |- pending_confirmed _ _ ?w2 /\ _ =>
      assert (Hconf : pending_confirmed Level2.isPhoneConfirmed user w2)
        by (eapply pending_confirmed_after_save;
            [exact Hf | reflexivity | reflexivity])
  end.
  split; [exact Hconf|].
  rewrite validatePhone_refused; [reflexivity | right; right; exact Hconf].
Qed.

Lemma confirm_email_then_refused genCheck baseURL template send user (w : World)
    r l2 c :
  find (request_query (user_id user) "level-2" "created") (requests w) = Some r ->
  req_level2 r = Some l2 ->
  filter (check_scope (user_id user) "confirm-email") (checks w) = [c] ->
  chk_payload c = Level2.email l2 ->
  chk_check c <> "" ->
  let w2 := fst (confirmLevel2Request user (email_code_only (chk_check c)) w) in
  snd (confirmLevel2Request user (email_code_only (chk_check c)) w) =
    Return {| isEmailTried := true; isEmailVerified := true;
              isPhoneTried := false; isPhoneVerified := false |} /\
  filter (check_scope (user_id user) "confirm-email") (checks w2) = [] /\
  pending_confirmed Level2.isEmailConfirmed user w2 /\
  snd (validateEmail genCheck baseURL template send user w2) = Throw IllegalState.
Proof.
  intros Hf Hl Hs Hpay Hne w2. subst w2.
  rewrite (confirm_email_success user w r l2 c Hf Hl Hs Hpay Hne). simpl.
  split; [reflexivity|]. split; [now apply sole_check_gone|].
  match goal with
  | |- pending_confirmed _ _ ?w2 /\ _ =>
      assert (Hconf : pending_confirmed Level2.isEmailConfirmed user w2)
        by (eapply pending_confirmed_after_save;
            [exact Hf | reflexivity | reflexivity])
  end.
  split; [exact Hconf|].
  rewrite validateEmail_refused; [reflexivity | right; right; exact Hconf].
Qed.

(** X13. Issue, confirm, refuse.  When the account's pending request has an
    unconfirmed phone and the code [validatePhone] issues is not empty,
    [confirmLevel2Request] with that code right after the trigger verifies
    the phone, leaves the account without a confirm-phone check and the
    stored request with its phone confirmed, and a further [validatePhone]
    raises IllegalState.  The same holds of [validateEmail], the email code
    and confirm-email, whether or not the mail could be sent. *)
Theorem issued_code_confirms_once :
  forall genCheck baseURL template send user (w : World),
    genCheck (nextId w) <> "" ->
    (forall l2,
       pending_unconfirmed Level2.isPhoneConfirmed user w l2 ->
       let w1 := fst (validatePhone genCheck user w) in
       let w2 := fst (confirmLevel2Request user (phone_code_only (genCheck (nextId w))) w1) in
       snd (confirmLevel2Request user (phone_code_only (genCheck (nextId w))) w1) =
         Return {| isEmailTried := false; isEmailVerified := false;
                   isPhoneTried := true; isPhoneVerified := true |} /\
       filter (check_scope (user_id user) "confirm-phone") (checks w2) = [] /\
       pending_confirmed Level2.isPhoneConfirmed user w2 /\
       snd (validatePhone genCheck user w2) = Throw IllegalState) /\
    (forall l2,
       pending_unconfirmed Level2.isEmailConfirmed user w l2 ->
       let w1 := fst (validateEmail genCheck baseURL template send user w) in
       let w2 := fst (confirmLevel2Request user (email_code_only (genCheck (nextId w))) w1) in
       snd (confirmLevel2Request user (email_code_only (genCheck (nextId w))) w1) =
         Return {| isEmailTried := true; isEmailVerified := true;
                   isPhoneTried := false; isPhoneVerified := false |} /\
       filter (check_scope (user_id user) "confirm-email") (checks w2) = [] /\
       pending_confirmed Level2.isEmailConfirmed user w2 /\
       snd (validateEmail genCheck baseURL template send user w2) = Throw IllegalState).
Proof.
  intros genCheck baseURL template send user w Hne.
  assert (Hscope : forall type payload,
            check_scope (user_id user) type
              (issued_check genCheck user type payload w) = true).
  { intros. unfold check_scope, issued_check. simpl.
    now rewrite Nat.eqb_refl, String.eqb_refl. }
  split.
  - intros l2 H w1. subst w1.
    assert (Hreq : requests (fst (validatePhone genCheck user w)) = requests w)
      by now rewrite (validatePhone_issues genCheck _ _ _ H).
    assert (Hs : filter (check_scope (user_id user) "confirm-phone")
                   (checks (fst (validatePhone genCheck user w))) =
                 [issued_check genCheck user "confirm-phone" (Level2.phone l2) w]).
    { rewrite (validatePhone_issues genCheck _ _ _ H). simpl.
      apply sole_check_after_issue, Hscope. }
    destruct H as (r & Hf & Hl & Hc). rewrite <- Hreq in Hf.
    exact (confirm_phone_then_refused genCheck user _ r l2 _ Hf Hl Hs eq_refl Hne).
  - intros l2 H w1. subst w1.
    destruct (validateEmail_issues genCheck baseURL template send _ _ _ H)
      as (m & d & Hissue & _).
    assert (Hreq : requests (fst (validateEmail genCheck baseURL template send user w)) =
                   requests w) by now rewrite Hissue.
    assert (Hs : filter (check_scope (user_id user) "confirm-email")
                   (checks (fst (validateEmail genCheck baseURL template send user w))) =
                 [issued_check genCheck user "confirm-email" (Level2.email l2) w]).
    { rewrite Hissue. simpl. apply sole_check_after_issue, Hscope. }
    destruct H as (r & Hf & Hl & Hc). rewrite <- Hreq in Hf.
    exact (confirm_email_then_refused genCheck baseURL template send user _ r l2 _
             Hf Hl Hs eq_refl Hne).
Qed.



(** *** The level-2 submission and its triggers *)




(** X16. Resubmitting confirmed contacts triggers nothing.  When the pending
    request has both contacts confirmed and the submission carries the same
    email and phone, [upsertLevel2Request] returns after the lookup and the
    save alone: no check is removed or created, no mail is sent, both flags
    stay true, and the review fields are reset ([validationComment] to
    [null], [isValid] to false). *)
Theorem upsertLevel2Request_unchanged_confirmed_contacts :
  forall genCheck baseURL template send user rm (w : World) r old,
    find (request_query (user_id user) "level-2" "created") (requests w) = Some r ->
    req_level2 r = Some old ->
    VerificationRequestLevel2Model.email rm = Level2.email old ->
    VerificationRequestLevel2Model.phone rm = Level2.phone old ->
    Level2.isEmailConfirmed old = true ->
    Level2.isPhoneConfirmed old = true ->
    upsertLevel2Request genCheck baseURL template send user rm w =
      ({| users := users w; signatures := signatures w; tokens := tokens w;
          checks := checks w;
          requests :=
            replace_request
              (set_level2
                 {| Level2.email := Level2.email old; Level2.phone := Level2.phone old;
                    Level2.isEmailConfirmed := true; Level2.isPhoneConfirmed := true;
                    Level2.validationComment := None; Level2.isValid := Some false |}
                 r)
              (requests w);
          nextId := nextId w;
          trace := trace w ++ [RequestFindOne (user_id user) "level-2" "created";
                               RequestSave (req_id r)] |},
       Return tt).
Proof.
  intros genCheck baseURL template send user rm w r old Hf Hl He Hp Hec Hpc.
  assert (Hnew : resubmitted_level2 rm old =
                 {| Level2.email := Level2.email old; Level2.phone := Level2.phone old;
                    Level2.isEmailConfirmed := true; Level2.isPhoneConfirmed := true;
                    Level2.validationComment := None; Level2.isValid := Some false |}).
  { unfold resubmitted_level2. now rewrite He, Hp, !String.eqb_refl, Hec, Hpc. }
  unfold upsertLevel2Request.
  rewrite (bind_return _ _ _ _ _ (upsertLevel2_upsert_update user rm w r old Hf Hl)).
  rewrite Hnew. unfold upsertLevel2_reverify, bind, deref, ret. simpl. reflexivity.
Qed.

(** *** What a submission leaves alone *)

Lemma upserted_frame user level update create (w w' : World) d :
  keeps_identity update ->
  wf w -> upserted user level update create w w' ->
  In d (requests w) ->
  find (request_query user level "created") (requests w) <> Some d ->
  In d (requests w').
Proof.
  intros Hkeep Hwf Hups Hd Hne. unfold upserted in Hups.
  destruct (find (request_query user level "created") (requests w)) as [r|] eqn:Hf.
  - rewrite Hups. unfold replace_request. apply in_map_iff. exists d.
    split; [|exact Hd].
    destruct (Nat.eqb (req_id d) (req_id (update r))) eqn:E; [|reflexivity].
    exfalso. apply Hne. f_equal.
    apply find_In in Hf as [Hr _]. destruct Hwf as (_ & _ & _ & _ & Hk).
    apply Nat.eqb_eq in E. destruct (Hkeep r) as (Hid & _). rewrite Hid in E.
    symmetry. eapply keyed_unique; eauto.
  - rewrite Hups. apply in_or_app. now left.
Qed.

(** X17. A submission touches one request only.  In a well-formed world,
    every stored request other than the pending one the submission finds for
    its account and level (another account's, another level's, one no longer
    in status "created") is still stored, unchanged, after
    [upsertLevel1Request] ... [upsertLevel4Request]; and the submissions of
    levels 1, 3 and 4 leave the users, signatures, tokens and checks as they
    are. *)
Theorem upsert_leaves_the_rest :
  forall genCheck baseURL template send user rm1 rm2 rm3 rm4 (w : World) d,
    wf w ->
    In d (requests w) ->
    (find (request_query (user_id user) "level-1" "created") (requests w) <> Some d ->
     In d (requests (fst (upsertLevel1Request user rm1 w)))) /\
    (find (request_query (user_id user) "level-2" "created") (requests w) <> Some d ->
     In d (requests (fst (upsertLevel2Request genCheck baseURL template send
                            user rm2 w)))) /\
    (find (request_query (user_id user) "level-3" "created") (requests w) <> Some d ->
     In d (requests (fst (upsertLevel3Request user rm3 w)))) /\
    (find (request_query (user_id user) "level-4" "created") (requests w) <> Some d ->
     In d (requests (fst (upsertLevel4Request user rm4 w)))) /\
    same_but_requests w (fst (upsertLevel1Request user rm1 w)) /\
    same_but_requests w (fst (upsertLevel3Request user rm3 w)) /\
    same_but_requests w (fst (upsertLevel4Request user rm4 w)).
Proof.
  intros genCheck baseURL template send user rm1 rm2 rm3 rm4 w d Hwf Hd.
  assert (Hpat : forall level update create,
            keeps_identity update ->
            find (request_query (user_id user) level "created") (requests w) <> Some d ->
            In d (requests
                    (fst ((request <- Request_findOne (user_id user) level "created" ;;
                           match request with
                           | Some request => Request_save (update request)
                           | None =>
                               Request_create
                                 (fun id => create (new_request (user_id user) level id)) ;;;
                               ret tt
                           end) w)))).
  { intros level update create Hkeep Hne.
    eapply (upserted_frame (user_id user) level update create); eauto.
    unfold upserted, bind, Request_findOne. simpl.
    destruct (find _ (requests w)); reflexivity. }
  assert (Hsame : forall level update create,
            same_but_requests w
              (fst ((request <- Request_findOne (user_id user) level "created" ;;
                     match request with
                     | Some request => Request_save (update request)
                     | None =>
                         Request_create
                           (fun id => create (new_request (user_id user) level id)) ;;;
                         ret tt
                     end) w))).
  { intros level update create. unfold same_but_requests, bind, Request_findOne. simpl.
    destruct (find _ (requests w)); simpl; auto. }
  split; [apply Hpat, keeps_set_level1|].
  split.
  { intros Hne. rewrite upsertLevel2Request_requests.
    eapply (upserted_frame (user_id user) "level-2"); eauto.
    - apply keeps_resubmit_level2.
    - now apply upsertLevel2_upsert_upserted. }
  split; [apply Hpat, keeps_set_level3|].
  split; [apply Hpat, keeps_set_level4|].
  split; [apply Hsame|]. split; apply Hsame.
Qed.

Lemma replace_request_twice (r1 r2 : VerificationRequest) (l : list VerificationRequest) :
  req_id r2 = req_id r1 ->
  replace_request r2 (replace_request r1 l) = replace_request r2 l.
Proof.
  intros Hid. unfold replace_request. rewrite map_map. apply map_ext. intros d.
  destruct (Nat.eqb (req_id d) (req_id r1)) eqn:E.
  - now rewrite Hid, Nat.eqb_refl, E.
  - now rewrite Hid, E.
Qed.

Lemma replace_request_fresh (n : ObjectId) (l : list VerificationRequest)
    (r : VerificationRequest) :
  keyed req_id n l -> req_id r = n -> replace_request r l = l.
Proof.
  intros [_ Hlt] Hid. unfold replace_request. rewrite <- (map_id l) at 2.
  apply map_ext_in. intros d Hd.
  destruct (Nat.eqb (req_id d) (req_id r)) eqn:E; [|reflexivity].
  apply Nat.eqb_eq in E. rewrite Forall_forall in Hlt.
  specialize (Hlt (req_id d) (in_map req_id _ _ Hd)). lia.
Qed.

Lemma upsert_pattern_twice user level
    (f f' : VerificationRequest -> VerificationRequest) (w : World) :
  keeps_identity f -> keeps_identity f' -> (forall r, f' (f r) = f' r) ->
  wf w ->
  requests
    (fst ((request <- Request_findOne user level "created" ;;
           match request with
           | Some request => Request_save (f' request)
           | None =>
               Request_create (fun id => f' (new_request user level id)) ;;; ret tt
           end)
            (fst ((request <- Request_findOne user level "created" ;;
                   match request with
                   | Some request => Request_save (f request)
                   | None =>
                       Request_create (fun id => f (new_request user level id)) ;;;
                       ret tt
                   end) w)))) =
  requests
    (fst ((request <- Request_findOne user level "created" ;;
           match request with
           | Some request => Request_save (f' request)
           | None =>
               Request_create (fun id => f' (new_request user level id)) ;;; ret tt
           end) w)).
Proof.
  intros Hf Hf' Hlast Hwf. unfold bind, Request_findOne, Request_save, Request_create, ret.
  simpl.
  destruct (find (request_query user level "created") (requests w)) as [r|] eqn:Hfind;
    simpl.
  - destruct (Hf r) as (Hid & Hu & Hl & Hs). destruct (Hf' r) as (Hid' & _).
    rewrite (find_replace _ _ r (f r) Hfind); [|
      rewrite (request_query_eq _ _ _ r (f r) Hu Hl Hs);
      now apply find_In in Hfind | exact Hid].
    simpl. rewrite Hlast. apply replace_request_twice. congruence.
  - destruct (Hf (new_request user level (nextId w))) as (Hid & Hu & Hl & Hs).
    destruct (Hf' (new_request user level (nextId w))) as (Hid' & _).
    simpl in *.
    rewrite (find_app_none _ _ _ Hfind).
    replace (request_query user level "created" (f (new_request user level (nextId w))))
      with true.
    + simpl. rewrite Hlast. unfold replace_request. rewrite map_app. simpl. f_equal.
      * destruct Hwf as (_ & _ & _ & _ & Hk).
        apply (replace_request_fresh (nextId w) _ _ Hk). exact Hid'.
      * now rewrite Hid', Hid, Nat.eqb_refl.
    + symmetry. apply request_query_true. auto.
Qed.

(** X18. The last submission wins for levels 3 and 4.  In a well-formed
    world, submitting twice leaves the same requests as the second submission
    alone; in particular submitting the same payload twice leaves the same
    requests as submitting it once. *)
Theorem upsertLevel3_4_last_write_wins :
  forall user rm3 rm3' rm4 rm4' (w : World),
    wf w ->
    requests (fst (upsertLevel3Request user rm3'
                     (fst (upsertLevel3Request user rm3 w)))) =
      requests (fst (upsertLevel3Request user rm3' w)) /\
    requests (fst (upsertLevel4Request user rm4'
                     (fst (upsertLevel4Request user rm4 w)))) =
      requests (fst (upsertLevel4Request user rm4' w)).
Proof.
  intros user rm3 rm3' rm4 rm4' w Hwf. split.
  - apply (upsert_pattern_twice (user_id user) "level-3"
             (set_level3 (submitted_level3 rm3)) (set_level3 (submitted_level3 rm3')));
      auto using keeps_set_level3.
  - apply (upsert_pattern_twice (user_id user) "level-4"
             (set_level4 (submitted_level4 rm4)) (set_level4 (submitted_level4 rm4')));
      auto using keeps_set_level4.
Qed.

(** *** What a trigger leaves alone, and what it mails *)

Lemma filter_other_scope user type user' type' (l : list SecurityCheck) c :
  user' <> user \/ type' <> type ->
  check_scope user type c = true ->
  filter (check_scope user' type')
    (filter (fun d => negb (check_scope user type d)) l ++ [c]) =
  filter (check_scope user' type') l.
Proof.
  intros Hne Hc.
  assert (Hexcl : forall x, check_scope user' type' x = true ->
                            check_scope user type x = false).
  { intros x Hx. destruct (check_scope user type x) eqn:E; [|reflexivity].
    unfold check_scope in *. apply andb_true_iff in Hx as [Hu Ht].
    apply andb_true_iff in E as [Hu' Ht'].
    apply Nat.eqb_eq in Hu, Hu'. apply String.eqb_eq in Ht, Ht'.
    destruct Hne; congruence. }
  rewrite filter_app. simpl.
  replace (check_scope user' type' c) with false.
  - rewrite app_nil_r. apply filter_filter_implies.
    intros x Hx. now rewrite (Hexcl x Hx).
  - destruct (check_scope user' type' c) eqn:E; [|reflexivity].
    apply Hexcl in E. congruence.
Qed.

(** X19. A trigger touches the checks of its account and type only.
    Whether it raises or issues, [validatePhone] leaves the checks of every
    other account, and the account's checks of another type, as they are,
    and it leaves the users, signatures, tokens and requests as they are;
    likewise [validateEmail] for confirm-email. *)
Theorem trigger_leaves_other_checks :
  forall genCheck baseURL template send user (w : World) user' type',
    (user' <> user_id user \/ type' <> "confirm-phone" ->
     filter (check_scope user' type') (checks (fst (validatePhone genCheck user w))) =
     filter (check_scope user' type') (checks w)) /\
    same_but_checks w (fst (validatePhone genCheck user w)) /\
    (user' <> user_id user \/ type' <> "confirm-email" ->
     filter (check_scope user' type')
       (checks (fst (validateEmail genCheck baseURL template send user w))) =
     filter (check_scope user' type') (checks w)) /\
    same_but_checks w (fst (validateEmail genCheck baseURL template send user w)).
Proof.
  intros genCheck baseURL template send user w user' type'.
  assert (Hscope : forall type payload,
            check_scope (user_id user) type
              (issued_check genCheck user type payload w) = true).
  { intros. unfold check_scope, issued_check. simpl.
    now rewrite Nat.eqb_refl, String.eqb_refl. }
  split; [|split; [|split]].
  - intros Hne.
    destruct (pending_cases Level2.isPhoneConfirmed user w) as [H|[l2 H]].
    + now rewrite validatePhone_refused.
    + rewrite (validatePhone_issues genCheck _ _ _ H). simpl.
      apply filter_other_scope; [exact Hne | apply Hscope].
  - destruct (pending_cases Level2.isPhoneConfirmed user w) as [H|[l2 H]].
    + rewrite validatePhone_refused; [repeat split | exact H].
    + rewrite (validatePhone_issues genCheck _ _ _ H). repeat split.
  - intros Hne.
    destruct (pending_cases Level2.isEmailConfirmed user w) as [H|[l2 H]].
    + now rewrite validateEmail_refused.
    + destruct (validateEmail_issues genCheck baseURL template send _ _ _ H)
        as (m & d & Hrun & _).
      rewrite Hrun. simpl. apply filter_other_scope; [exact Hne | apply Hscope].
  - destruct (pending_cases Level2.isEmailConfirmed user w) as [H|[l2 H]].
    + rewrite validateEmail_refused; [repeat split | exact H].
    + destruct (validateEmail_issues genCheck baseURL template send _ _ _ H)
        as (m & d & Hrun & _).
      rewrite Hrun. repeat split.
Qed.

(** X20. The mail of a trigger.  When the account's pending request has an
    unconfirmed email, [validateEmail] makes four calls, the last of which
    sends one mail: to the pending email, with the subject and content the
    template gives for the account's name and the code of the check just
    created; it returns when the send resolves and fails with the dispatch
    error otherwise.  [validatePhone] never sends a mail. *)
Theorem validateEmail_mails_the_issued_code :
  forall genCheck baseURL template send user (w : World),
    (forall l2,
       pending_unconfirmed Level2.isEmailConfirmed user w l2 ->
       let code := genCheck (nextId w) in
       let m := {| msg_to := Level2.email l2;
                   msg_subject := fst (template baseURL (user_name user) code);
                   msg_html := snd (template baseURL (user_name user) code) |} in
       let calls := [RequestFindOne (user_id user) "level-2" "created";
                     CheckRemoveMany (user_id user) "confirm-email";
                     CheckCreate (nextId w) (user_id user) "confirm-email"] in
       extends w (fst (validateEmail genCheck baseURL template send user w))
         (calls ++ [MailSend m]) /\
       snd (validateEmail genCheck baseURL template send user w) =
         if send (trace w ++ calls)%list m then Return tt else Throw DispatchError) /\
    exists delta,
      extends w (fst (validatePhone genCheck user w)) delta /\
      Forall (fun e => is_mail e = false) delta.
Proof.
  intros genCheck baseURL template send user w. split.
  - intros l2 (r & H & Hl & Hc) code m calls. subst code m calls.
    unfold validateEmail, pending_level2, bind, Request_findOne, Check_removeMany,
      Check_create, Message_send, ret, extends. simpl.
    rewrite H. simpl. rewrite Hl. simpl. rewrite Hc. simpl.
    destruct (template baseURL (user_name user) (genCheck (nextId w)))
      as [subject content].
    simpl. rewrite <- !app_assoc. simpl. split; reflexivity.
  - destruct (pending_cases Level2.isPhoneConfirmed user w) as [H|[l2 H]].
    + rewrite validatePhone_refused; [|exact H]. eexists. split; [reflexivity|].
      repeat constructor.
    + rewrite (validatePhone_issues genCheck _ _ _ H). eexists.
      split; [reflexivity|]. repeat constructor.
Qed.

(** *** One check per account and type *)

Lemma unique_check_issue user type (l : list SecurityCheck) c :
  check_scope user type c = true ->
  (forall u t, List.length (filter (check_scope u t) l) <= 1) ->
  forall u t,
    List.length
      (filter (check_scope u t)
         (filter (fun d => negb (check_scope user type d)) l ++ [c])) <= 1.
Proof.
  intros Hc Hu u t.
  destruct (Nat.eq_dec u user) as [->|Hne];
    [destruct (String.string_dec t type) as [->|Hne]|].
  - now rewrite sole_check_after_issue.
  - rewrite (filter_other_scope user type user t l c); auto.
  - rewrite (filter_other_scope user type u t l c); auto.
Qed.

Lemma unique_check_filter (p : SecurityCheck -> bool) (l : list SecurityCheck) :
  (forall u t, List.length (filter (check_scope u t) l) <= 1) ->
  forall u t, List.length (filter (check_scope u t) (filter p l)) <= 1.
Proof.
  intros Hu u t. specialize (Hu u t).
  assert (List.length (filter (check_scope u t) (filter p l)) <=
          List.length (filter (check_scope u t) l)); [|lia].
  clear Hu. induction l as [|x l IH]; simpl; [lia|].
  destruct (p x); simpl; destruct (check_scope u t x); simpl; lia.
Qed.

Lemma unique_check_validatePhone genCheck user :
  preserves unique_check (validatePhone genCheck user).
Proof.
  intros w Hu.
  destruct (pending_cases Level2.isPhoneConfirmed user w) as [H|[l2 H]].
  - now rewrite validatePhone_refused.
  - rewrite (validatePhone_issues genCheck _ _ _ H). intros u t. simpl.
    apply unique_check_issue; [|exact Hu].
    unfold check_scope, issued_check. simpl. now rewrite Nat.eqb_refl.
Qed.

Lemma unique_check_validateEmail genCheck baseURL template send user :
  preserves unique_check (validateEmail genCheck baseURL template send user).
Proof.
  intros w Hu.
  destruct (pending_cases Level2.isEmailConfirmed user w) as [H|[l2 H]].
  - now rewrite validateEmail_refused.
  - destruct (validateEmail_issues genCheck baseURL template send _ _ _ H)
      as (m & d & Hrun & _).
    rewrite Hrun. intros u t. simpl.
    apply unique_check_issue; [|exact Hu].
    unfold check_scope, issued_check. simpl. now rewrite Nat.eqb_refl.
Qed.

Lemma unique_check_Check_remove c : preserves unique_check (Check_remove c).
Proof. intros w Hu u t. simpl. now apply unique_check_filter. Qed.

(** X21. The service keeps the checks unique.  From a world with at most
    one check per (account, type), the world after [validatePhone],
    [validateEmail], [upsertLevel2Request] or [confirmLevel2Request] has at
    most one check per (account, type) again, whatever the outcome. *)
Theorem checks_stay_unique :
  forall genCheck baseURL template send user rm2 rmc (w : World),
    unique_check w ->
    unique_check (fst (validatePhone genCheck user w)) /\
    unique_check (fst (validateEmail genCheck baseURL template send user w)) /\
    unique_check (fst (upsertLevel2Request genCheck baseURL template send user rm2 w)) /\
    unique_check (fst (confirmLevel2Request user rmc w)).
Proof.
  intros genCheck baseURL template send user rm2 rmc w Hu.
  split; [now apply unique_check_validatePhone|].
  split; [now apply unique_check_validateEmail|].
  split.
  - revert Hu.
    match goal with
    | |- unique_check w -> unique_check (fst (?m w)) =>
        enough (Hp : preserves unique_check m) by exact (Hp w)
    end.
    pose proof unique_check_validatePhone. pose proof unique_check_validateEmail.
    unfold upsertLevel2Request, upsertLevel2_upsert, upsertLevel2_reverify.
    preserve; intros ww Hww; exact Hww.
  - revert Hu.
    match goal with
    | |- unique_check w -> unique_check (fst (?m w)) =>
        enough (Hp : preserves unique_check m) by exact (Hp w)
    end.
    pose proof unique_check_Check_remove.
    unfold confirmLevel2Request, confirm_channel.
    preserve; try (intros ww Hww; exact Hww).
Qed.

Lemma strict_eq_opt_false (a : string) (b : option string) :
  b <> Some a -> strict_eq_opt a b = false.
Proof.
  destruct b as [b|]; simpl; [|reflexivity].
  intros H. apply String.eqb_neq. congruence.
Qed.

(** X22. The first level-2 submission.  When the account has no pending
    level-2 request and the submitted email and phone are not the account's
    own, [upsertLevel2Request] creates the request with both flags false,
    then issues the phone check and the email check in that order and sends
    one mail, to the submitted email: nine calls in all.  Afterwards the
    account has exactly one confirm-phone check, carrying the submitted
    phone, and exactly one confirm-email check, carrying the submitted
    email. *)
Theorem upsertLevel2Request_first_submission :
  forall genCheck baseURL template send user rm (w : World),
    find (request_query (user_id user) "level-2" "created") (requests w) = None ->
    UserLevel2.email (user_level2 user) <> Some (VerificationRequestLevel2Model.email rm) ->
    UserLevel2.phone (user_level2 user) <> Some (VerificationRequestLevel2Model.phone rm) ->
    let w' := fst (upsertLevel2Request genCheck baseURL template send user rm w) in
    let n := nextId w in
    exists new m,
      find (request_query (user_id user) "level-2" "created") (requests w') =
        Some (set_level2 new (new_request (user_id user) "level-2" n)) /\
      Level2.isEmailConfirmed new = false /\ Level2.isPhoneConfirmed new = false /\
      extends w w'
        [RequestFindOne (user_id user) "level-2" "created";
         RequestCreate n;
         RequestFindOne (user_id user) "level-2" "created";
         CheckRemoveMany (user_id user) "confirm-phone";
         CheckCreate (S n) (user_id user) "confirm-phone";
         RequestFindOne (user_id user) "level-2" "created";
         CheckRemoveMany (user_id user) "confirm-email";
         CheckCreate (S (S n)) (user_id user) "confirm-email";
         MailSend m] /\
      msg_to m = VerificationRequestLevel2Model.email rm /\
      filter (check_scope (user_id user) "confirm-phone") (checks w') =
        [{| chk_id := S n; chk_user := user_id user; chk_type := "confirm-phone";
            chk_payload := VerificationRequestLevel2Model.phone rm;
            chk_check := genCheck (S n) |}] /\
      filter (check_scope (user_id user) "confirm-email") (checks w') =
        [{| chk_id := S (S n); chk_user := user_id user; chk_type := "confirm-email";
            chk_payload := VerificationRequestLevel2Model.email rm;
            chk_check := genCheck (S (S n)) |}].
Proof.
  intros genCheck baseURL template send user rm w Hf He Hp w' n. subst w' n.
  pose proof (upsertLevel2_upsert_create user rm w Hf) as Hups.
  set (new := submitted_level2 user rm) in *.
  set (request := set_level2 new (new_request (user_id user) "level-2" (nextId w))) in *.
  assert (Hne : Level2.isEmailConfirmed new = false) by (apply strict_eq_opt_false, He).
  assert (Hnp : Level2.isPhoneConfirmed new = false) by (apply strict_eq_opt_false, Hp).
  unfold upsertLevel2Request. rewrite (bind_return _ _ _ _ _ Hups).
  match type of Hups with _ = (?x, _) => set (w1 := x) in * end.
  assert (Hf1 : find (request_query (user_id user) "level-2" "created") (requests w1) =
                Some request).
  { subst w1. simpl. rewrite (find_app_none _ _ _ Hf). unfold request_query. simpl.
    now rewrite Nat.eqb_refl. }
  assert (Hpend1 : pending_unconfirmed Level2.isPhoneConfirmed user w1 new)
    by (exists request; auto).
  pose proof (validatePhone_issues genCheck user w1 new Hpend1) as Hphone.
  match type of Hphone with _ = (?x, _) => set (w2 := x) in * end.
  assert (Hpend2 : pending_unconfirmed Level2.isEmailConfirmed user w2 new)
    by (exists request; auto).
  destruct (validateEmail_issues genCheck baseURL template send user w2 new Hpend2)
    as (m & d & Hmail & Hto).
  assert (Hrun : fst (upsertLevel2_reverify genCheck baseURL template send user request w1) =
                 fst (validateEmail genCheck baseURL template send user w2)).
  { unfold upsertLevel2_reverify. rewrite bind_run.
    replace (req_level2 request) with (Some new) by reflexivity.
    unfold deref, ret. cbv beta iota. rewrite Hnp, Hne. simpl negb. cbv beta iota.
    rewrite bind_run, Hphone. reflexivity. }
  rewrite Hrun, Hmail. simpl.
  exists new, m.
  split; [exact Hf1|]. split; [exact Hne|]. split; [exact Hnp|].
  split; [unfold extends; simpl; now rewrite <- !app_assoc|].
  split; [exact Hto|].
  split.
  - rewrite (filter_other_scope (user_id user) "confirm-email" (user_id user)
               "confirm-phone").
    + apply sole_check_after_issue. unfold check_scope. simpl. now rewrite Nat.eqb_refl.
    + right. discriminate.
    + unfold check_scope. simpl. now rewrite Nat.eqb_refl.
  - apply sole_check_after_issue. unfold check_scope. simpl. now rewrite Nat.eqb_refl.
Qed.

(** ** The further properties at sample worlds *)

Lemma pending_world_unique_token : unique_token pending_world.
Proof.
  intros user purpose. simpl.
  destruct (token_scope user purpose alice_token); simpl; lia.
Qed.

Lemma pending_world_unique_check : unique_check pending_world.
Proof.
  intros user type. simpl.
  destruct (check_scope user type alice_email_check) eqn:E1;
    destruct (check_scope user type alice_phone_check) eqn:E2; simpl; try lia.
  unfold check_scope in E1, E2.
  apply andb_true_iff in E1 as [_ E1]. apply andb_true_iff in E2 as [_ E2].
  apply String.eqb_eq in E1, E2. simpl in E1, E2. congruence.
Qed.

Lemma empty_world_unique_signature : unique_signature empty_world.
Proof. intros value type. simpl. lia. Qed.

(** X2: repetitions and letter case of the addresses do not matter. *)
Lemma selectPersons_same_lowercase_set_witness :
  selectPersons ["0xAB"; "0xab"; "0xAB"] pending_world =
  selectPersons ["0xab"] pending_world.
Proof.
  apply (selectPersons_same_lowercase_set ["0xAB"; "0xab"; "0xAB"] ["0xab"] pending_world).
  intros a. simpl. tauto.
Defined.



(** X6 in the empty world. *)
Lemma requireSignature_keeps_signatures_unique_witness :
  unique_signature (fst (requireSignature "ethereum-address" "0xab" empty_world)).
Proof.
  exact (proj1 (proj2 (requireSignature_keeps_signatures_unique "ethereum-address" "0xab"
                         empty_world empty_world_wf empty_world_unique_signature))).
Defined.

(** X8: Alice's token, held once, is not found after its removal. *)
Lemma findToken_after_removeToken_witness :
  snd (findToken "t5" (fst (removeToken "t5" pending_world))) = Return None.
Proof.
  exact (findToken_after_removeToken "t5" pending_world alice_token []
           pending_world_wf eq_refl).
Defined.


(** X10 at Alice's pending world. *)
Lemma upsertToken_keeps_tokens_unique_witness :
  unique_token (fst (upsertToken sample_genToken alice "reset" pending_world)).
Proof.
  exact (proj1 (proj2 (upsertToken_keeps_tokens_unique sample_genToken alice "reset"
                         pending_world pending_world_wf pending_world_unique_token))).
Defined.

(** X11: Alice's login token is revoked and the next one is another. *)
Lemma upsertToken_after_removeToken_is_another_witness :
  snd (removeToken "t5" (fst (upsertToken sample_genToken alice "login" pending_world))) =
    Return (populate_token pending_world alice_token).
Proof.
  exact (proj1 (upsertToken_after_removeToken_is_another sample_genToken alice "login"
                  pending_world (populate_token pending_world alice_token)
                  pending_world_wf eq_refl eq_refl)).
Defined.

(** X12 in the empty world: no pending request, the codes are not looked at. *)
Lemma confirmLevel2Request_needs_pending_payload_witness :
  confirmLevel2Request alice (email_code_only "c3") empty_world =
    (emit (RequestFindOne 0 "level-2" "created") empty_world, Throw PreconditionFailed).
Proof.
  exact (proj1 (confirmLevel2Request_needs_pending_payload alice (email_code_only "c3")
                  empty_world) eq_refl).
Defined.

(** X13 at Alice's pending world: the phone code issued confirms. *)
Lemma issued_code_confirms_once_witness :
  snd (confirmLevel2Request alice (phone_code_only "c6")
         (fst (validatePhone sample_genCheck alice pending_world))) =
    Return {| isEmailTried := false; isEmailVerified := false;
              isPhoneTried := true; isPhoneVerified := true |}.
Proof.
  refine (proj1 (proj1 (issued_code_confirms_once sample_genCheck "" sample_template
                          sample_send alice pending_world _)
                   alice_level2
                   (ex_intro _ alice_request (conj eq_refl (conj eq_refl eq_refl))))).
  discriminate.
Defined.



(** X16 at the world where both of Alice's contacts are confirmed. *)
Lemma upsertLevel2Request_unchanged_confirmed_contacts_witness :
  snd (upsertLevel2Request sample_genCheck "" sample_template sample_send alice
         same_contacts confirmed_world) = Return tt /\
  checks (fst (upsertLevel2Request sample_genCheck "" sample_template sample_send alice
                 same_contacts confirmed_world)) = [].
Proof.
  rewrite (upsertLevel2Request_unchanged_confirmed_contacts sample_genCheck ""
             sample_template sample_send alice same_contacts confirmed_world
             (set_level2 (set_isPhoneConfirmed true (set_isEmailConfirmed true alice_level2))
                alice_request)
             (set_isPhoneConfirmed true (set_isEmailConfirmed true alice_level2))
             eq_refl eq_refl eq_refl eq_refl eq_refl eq_refl).
  split; reflexivity.
Defined.

(** X17 at Alice's pending world: her level-2 request survives a level-1
    submission. *)
Lemma upsert_leaves_the_rest_witness :
  In alice_request (requests (fst (upsertLevel1Request alice sample_level1 pending_world))).
Proof.
  refine (proj1 (upsert_leaves_the_rest sample_genCheck "" sample_template sample_send
                   alice sample_level1 sample_level2 sample_level3 sample_level4
                   pending_world alice_request pending_world_wf (or_introl eq_refl)) _).
  discriminate.
Defined.

(** X18 at Alice's pending world. *)
Lemma upsertLevel3_4_last_write_wins_witness :
  requests (fst (upsertLevel3Request alice sample_level3
                   (fst (upsertLevel3Request alice sample_level3 pending_world)))) =
  requests (fst (upsertLevel3Request alice sample_level3 pending_world)).
Proof.
  exact (proj1 (upsertLevel3_4_last_write_wins alice sample_level3 sample_level3
                  sample_level4 sample_level4 pending_world pending_world_wf)).
Defined.

(** X19 at Alice's pending world: her email check survives the phone
    trigger. *)
Lemma trigger_leaves_other_checks_witness :
  filter (check_scope 0 "confirm-email")
    (checks (fst (validatePhone sample_genCheck alice pending_world))) =
  [alice_email_check].
Proof.
  refine (proj1 (trigger_leaves_other_checks sample_genCheck "" sample_template
                   sample_send alice pending_world 0 "confirm-email") _).
  right. discriminate.
Defined.

(** X20 at Alice's pending world: the mail carries the code "c6". *)
Lemma validateEmail_mails_the_issued_code_witness :
  snd (validateEmail sample_genCheck "https://x" sample_template sample_send alice
         pending_world) = Return tt.
Proof.
  exact (proj2 (proj1 (validateEmail_mails_the_issued_code sample_genCheck "https://x"
                         sample_template sample_send alice pending_world)
                  alice_level2
                  (ex_intro _ alice_request (conj eq_refl (conj eq_refl eq_refl))))).
Defined.

(** X21 at Alice's pending world. *)
Lemma checks_stay_unique_witness :
  unique_check (fst (upsertLevel2Request sample_genCheck "" sample_template sample_send
                       alice other_contacts pending_world)).
Proof.
  exact (proj1 (proj2 (proj2 (checks_stay_unique sample_genCheck "" sample_template
                                sample_send alice other_contacts (email_code_only "c3")
                                pending_world pending_world_unique_check)))).
Defined.

(** X22 in the empty world: Alice's first submission, of contacts that are
    not her own. *)
Lemma upsertLevel2Request_first_submission_witness :
  exists new m,
    find (request_query 0 "level-2" "created")
      (requests (fst (upsertLevel2Request sample_genCheck "" sample_template sample_send
                        alice other_contacts empty_world))) =
      Some (set_level2 new (new_request 0 "level-2" 0)) /\
    msg_to m = "b@x.com".
Proof.
  destruct (upsertLevel2Request_first_submission sample_genCheck "" sample_template
              sample_send alice other_contacts empty_world eq_refl)
    as (new & m & Hfind & _ & _ & _ & Hto & _); try discriminate.
  exists new, m. split; assumption.
Defined.
